(** * Department portal backend: lookup and admin handlers over one table

    The service exists in two variants that share their routes and differ in
    the relational store behind them: [src/server.js] talks to PostgreSQL
    through [pg], the second source file talks to MySQL through [mysql2].
    Both are embedded here, in the modules [Postgres] and [MySQL], over a
    common model of JavaScript strings and values ([Js]) and of the table
    [class_semester_info] and its SQL operators ([Sql]).

    Modelling conventions.
    - A JavaScript string is a [string] whose characters are code units of the
      Latin-1 range; the white space of [String.prototype.trim] and of the
      regular expression class [\s] is then TAB, LF, VT, FF, CR, SPACE and
      NBSP.
    - A query-string parameter is absent or one string ([option string]).
    - SQL [TRIM(x)] strips the space character only, on both ends; SQL [=] and
      [<>] on text compare exactly; a comparison with NULL selects no row.
    - A statement sent to the store is either executed or raises; which of the
      two happens is decided by the environment (connectivity, constraints,
      conversion of parameters) and is the [fault] argument of every handler.
    - A [SELECT] without [ORDER BY] returns its rows in the scan order of the
      table, which is the order of the list of rows.  SQL leaves that order
      to the store; it is a convention here, and statements about such an
      answer are about its members, not their order.  The same holds for the
      place of a row in the table after an [UPDATE].
    - Neither store reads NaN as an integer: with NaN bound to an integer
      column a statement raises ([Store.raises_on]); the handlers are defined
      for both outcomes of every statement, and [fault = false] means that
      the store did execute it.
    - The id counter of the state is the id of the next record inserted; a
      store may also use up ids on statements that fail, and nothing is
      stated about the counter after a fault. *)

From Stdlib Require Import List String Ascii ZArith Bool Lia DecimalString.
From Stdlib Require Import DecimalN.
From Stdlib Require Import Sorting.Sorted Sorting.Permutation.
Import ListNotations.
Open Scope string_scope.
Open Scope Z_scope.

(* ================================================================== *)
(** ** Small list utilities: DISTINCT, ORDER BY, LIMIT *)
(* ================================================================== *)

Module Rel.

Section Distinct.
Context {A : Type}.
Variable eqb : A -> A -> bool.

(** [SELECT DISTINCT]: each value once.  The order of the values is the
    store's choice; here each stands at the place of its first occurrence. *)
Fixpoint distinct (l : list A) : list A :=
  match l with
  | [] => []
  | x :: t => x :: filter (fun y => negb (eqb x y)) (distinct t)
  end.
End Distinct.

Section OrderBy.
Context {A : Type}.
Variable le : A -> A -> bool.

Fixpoint insert (x : A) (l : list A) : list A :=
  match l with
  | [] => [x]
  | y :: t => if le x y then x :: l else y :: insert x t
  end.

(** [ORDER BY] with [le] as the ascending order. *)
Fixpoint order_by (l : list A) : list A :=
  match l with
  | [] => []
  | x :: t => insert x (order_by t)
  end.
End OrderBy.

(** [LIMIT 1]. *)
Definition limit1 {A : Type} (l : list A) : list A := firstn 1 l.

(** Ascending order on a nullable column: PostgreSQL sorts NULL after every
    value, MySQL before. *)
Definition le_nullable {A : Type} (nulls_first : bool) (le : A -> A -> bool)
    (x y : option A) : bool :=
  match x, y with
  | Some a, Some b => le a b
  | None, None => true
  | None, Some _ => nulls_first
  | Some _, None => negb nulls_first
  end.

Definition eqb_option {A : Type} (eqb : A -> A -> bool) (x y : option A)
    : bool :=
  match x, y with
  | Some a, Some b => eqb a b
  | None, None => true
  | _, _ => false
  end.

End Rel.

(* ================================================================== *)
(** ** JavaScript strings, numbers and values *)
(* ================================================================== *)

Module Js.

(** WhiteSpace and LineTerminator code units below 256. *)
Definition is_space (c : ascii) : bool :=
  existsb (Ascii.eqb c)
    ["009"; "010"; "011"; "012"; "013"; " "; "160"]%char.

Section Strip.
Variable drop : ascii -> bool.

Fixpoint strip_start (s : string) : string :=
  match s with
  | EmptyString => EmptyString
  | String c r => if drop c then strip_start r else s
  end.

Fixpoint strip_end (s : string) : string :=
  match s with
  | EmptyString => EmptyString
  | String c r =>
      match strip_end r with
      | EmptyString => if drop c then EmptyString else String c EmptyString
      | r' => String c r'
      end
  end.

Definition strip (s : string) : string := strip_end (strip_start s).
End Strip.

(** [s.trim()] *)
Definition trim (s : string) : string := strip is_space s.

(** [s.replace(/\s+/g, "_")]: every maximal run of white space becomes one
    underscore.  [in_run] tells that the previous code unit was white space. *)
Fixpoint replace_runs (in_run : bool) (s : string) : string :=
  match s with
  | EmptyString => EmptyString
  | String c r =>
      if is_space c
      then (if in_run then replace_runs true r
            else String "_" (replace_runs true r))
      else String c (replace_runs false r)
  end.

Definition replace_spaces (s : string) : string := replace_runs false s.

(** Truthiness of a string: only the empty string is falsy. *)
Definition truthy (s : string) : bool := negb (s =? "")%string.

(** A number, as far as an integer column can tell numbers apart: NaN, an
    integral value, or any other value (fractional or infinite). *)
Inductive number : Type :=
| NaN
| Int (z : Z)
| Frac.

(** The values a field of a parsed request body can hold. [Other] stands for
    booleans, arrays and objects. *)
Inductive value : Type :=
| Undefined
| Null
| Str (s : string)
| Num (n : number)
| Other.

(** Outcome of evaluating an expression: a value, or a thrown TypeError. *)
Inductive result (A : Type) : Type :=
| Ok (a : A)
| TypeError.
Arguments Ok {A} a.
Arguments TypeError {A}.

Definition bind {A B : Type} (m : result A) (k : A -> result B) : result B :=
  match m with
  | Ok a => k a
  | TypeError => TypeError
  end.

(** [v?.trim()]: undefined for undefined and null, the trimmed string for a
    string, and a TypeError ("trim is not a function") for anything else.
    The result is what the driver then sends: a text or NULL. *)
Definition opt_trim (v : value) : result (option string) :=
  match v with
  | Undefined | Null => Ok None
  | Str s => Ok (Some (trim s))
  | Num _ | Other => TypeError
  end.

(** [x || ""] on the result of [?.trim()]: undefined and the empty string
    both give the empty string. *)
Definition or_empty (o : option string) : string :=
  match o with
  | Some s => if truthy s then s else ""
  | None => ""
  end.

(** [String(n)] for a non-negative integer such as [Date.now()]. *)
Definition string_of_N (n : N) : string :=
  NilEmpty.string_of_uint (N.to_uint n).

Section Number.
(** [StringToNumber], the conversion [Number] applies to a string; its
    numeric grammar and rounding are those of the engine. *)
Variable StringToNumber : string -> number.

(** [Number(x)] for a query or form field: undefined gives NaN. *)
Definition Number (x : option string) : number :=
  match x with
  | None => NaN
  | Some s => StringToNumber s
  end.
End Number.

End Js.

Notation "x <- m ;; k" := (Js.bind m (fun x => k))
  (at level 61, m at next level, right associativity).


(* ================================================================== *)
(** ** The table [class_semester_info] and the SQL operators used on it *)
(* ================================================================== *)

Module Sql.

(** One record of the table.  Every column but [id] is nullable. *)
Record row : Type := mk_row {
  id : Z;
  class_name : option string;
  semester : option Z;
  section : option string;
  academic_year : option string;
  mentor_name : option string;
  designation : option string;
  contact : option string;
  timetable_link : option string;
  syllabus_link : option string;
  mentor_photo : option string
}.

(** The persistent state: the rows in scan order, the next generated id, and
    the files written below the upload directories. *)
Record state : Type := mk_state {
  table : list row;
  serial : Z;
  disk : list string
}.

(** [TRIM(x)] *)
Definition TRIM (s : string) : string := Js.strip (Ascii.eqb " ") s.

(** [col = $n] on text: true only when both sides are non-NULL and equal. *)
Definition text_eq (col p : option string) : bool :=
  match col, p with
  | Some a, Some b => (a =? b)%string
  | _, _ => false
  end.

(** [col = $n] on integers. *)
Definition int_eq (col p : option Z) : bool :=
  match col, p with
  | Some a, Some b => (a =? b)%Z
  | _, _ => false
  end.

(** [col IS NULL] *)
Definition is_null {A : Type} (col : option A) : bool :=
  match col with
  | None => true
  | Some _ => false
  end.

(** [TRIM(col) = ''], unknown (hence not selecting) on NULL. *)
Definition trim_is_empty (col : option string) : bool :=
  text_eq (option_map TRIM col) (Some "").

(** [TRIM(col) <> ''], unknown on NULL. *)
Definition trim_not_empty (col : option string) : bool :=
  match col with
  | Some s => negb (TRIM s =? "")%string
  | None => false
  end.

(** [col != ''], unknown on NULL. *)
Definition not_empty (col : option string) : bool :=
  match col with
  | Some s => negb (s =? "")%string
  | None => false
  end.

Section Conversion.
(** Input conversion of the store for an integer column: the integer a text
    parameter denotes, if it denotes one. *)
Variable text_to_int : string -> option Z.

(** The integer a bound parameter denotes for an integer column: an integral
    number is itself, a text is read by the store.  [None] is NULL (null,
    undefined) or no integer at all (NaN, a fraction, a boolean, an array, an
    object, a text the store does not read as an integer).  In the second
    case a store that insists on an integer raises instead of executing the
    statement, see [Store.raises_on] and [Store.int_readable]. *)
Definition int_param (v : Js.value) : option Z :=
  match v with
  | Js.Num (Js.Int z) => Some z
  | Js.Str s => text_to_int s
  | _ => None
  end.

(** A query or path parameter handed to the driver as it came. *)
Definition int_of_text (p : option string) : option Z :=
  match p with
  | Some s => text_to_int s
  | None => None
  end.
End Conversion.

(** The values bound to the eight classification and descriptive columns
    by an [INSERT] or an [UPDATE]. *)
Record fields : Type := mk_fields {
  v_class_name : option string;
  v_semester : option Z;
  v_section : option string;
  v_academic_year : option string;
  v_mentor_name : option string;
  v_designation : option string;
  v_contact : option string;
  v_timetable_link : option string
}.

(** [UPDATE ... SET] of the eight classification and descriptive columns;
    the statement names neither [syllabus_link] nor [mentor_photo]. *)
Definition set_fields (v : fields) (r : row) : row :=
  {| id := id r;
     class_name := v_class_name v;
     semester := v_semester v;
     section := v_section v;
     academic_year := v_academic_year v;
     mentor_name := v_mentor_name v;
     designation := v_designation v;
     contact := v_contact v;
     timetable_link := v_timetable_link v;
     syllabus_link := syllabus_link r;
     mentor_photo := mentor_photo r |}.

(** [UPDATE ... WHERE id = target].  Where the store puts an updated row
    among the others is its choice; here the row keeps its place. *)
Definition update_where_id (target : option Z) (f : row -> row)
    (t : list row) : list row :=
  map (fun r => if int_eq (Some (id r)) target then f r else r) t.

(** [DELETE ... WHERE id = target] *)
Definition delete_where_id (target : option Z) (t : list row) : list row :=
  filter (fun r => negb (int_eq (Some (id r)) target)) t.

(** The row an [INSERT] creates; the store generates its id. *)
Definition new_row (fresh : Z) (v : fields) (sl mp : option string) : row :=
  {| id := fresh;
     class_name := v_class_name v;
     semester := v_semester v;
     section := v_section v;
     academic_year := v_academic_year v;
     mentor_name := v_mentor_name v;
     designation := v_designation v;
     contact := v_contact v;
     timetable_link := v_timetable_link v;
     syllabus_link := sl;
     mentor_photo := mp |}.

(** [INSERT INTO class_semester_info (...) VALUES (...)] *)
Definition insert_row (v : fields) (sl mp : option string) (st : state)
    : state :=
  {| table := table st ++ [new_row (serial st) v sl mp];
     serial := serial st + 1;
     disk := disk st |}.

Definition with_table (t : list row) (st : state) : state :=
  {| table := t; serial := serial st; disk := disk st |}.

(** Lexicographic [ORDER BY class_name, semester]. *)
Definition le_class_semester (nulls_first : bool)
    (collate : string -> string -> bool) (r1 r2 : row) : bool :=
  let lc := Rel.le_nullable nulls_first collate in
  let ls := Rel.le_nullable nulls_first Z.leb in
  if lc (class_name r1) (class_name r2)
  then (if lc (class_name r2) (class_name r1)
        then ls (semester r1) (semester r2)
        else true)
  else false.

End Sql.

(* ================================================================== *)
(** ** Requests and responses *)
(* ================================================================== *)

Module Http.

(** The projection returned by the admin listing. *)
Record summary : Type := mk_summary {
  s_id : Z;
  s_class_name : option string;
  s_semester : option Z;
  s_section : option string;
  s_mentor_name : option string;
  s_designation : option string
}.

Definition summary_of (r : Sql.row) : summary :=
  {| s_id := Sql.id r;
     s_class_name := Sql.class_name r;
     s_semester := Sql.semester r;
     s_section := Sql.section r;
     s_mentor_name := Sql.mentor_name r;
     s_designation := Sql.designation r |}.

(** An element of a JSON array in a response. *)
Inductive item : Type :=
| ClassName (c : option string)
| Semester (s : option Z)
| Section_ (s : option string)
| Summary (s : summary).

(** A JSON response body. *)
Inductive body : Type :=
| JNull
| JArray (l : list item)
| JRecord (r : Sql.row)
| JMessage (m : string)
| JError (m : string).

(** What a handler does with a request: it sends a status and a body
    ([res.json] alone sends status 200), or an exception escapes it. *)
Inductive response : Type :=
| Reply (status : Z) (b : body)
| Raised.

(** [GET /api/details?class=..&semester=..&section=..] *)
Record details_query : Type := mk_details_query {
  q_class : option string;
  q_semester : option string;
  q_section : option string
}.

(** One uploaded file as the upload middleware sees it: its original name
    and the value of [Date.now()] when its stored name is chosen. *)
Record upload : Type := mk_upload {
  originalname : string;
  received : N
}.

(** The multipart form of [POST /api/admin/add]: text fields are strings or
    absent, each file field carries at most one file. *)
Record add_form : Type := mk_add_form {
  a_class_name : option string;
  a_semester : option string;
  a_section : option string;
  a_academic_year : option string;
  a_mentor_name : option string;
  a_designation : option string;
  a_contact : option string;
  a_timetable_link : option string;
  a_syllabus : option upload;
  a_mentor_photo : option upload
}.

(** The JSON body of [PUT /api/admin/update/:id]. *)
Record update_body : Type := mk_update_body {
  u_class_name : Js.value;
  u_semester : Js.value;
  u_section : Js.value;
  u_academic_year : Js.value;
  u_mentor_name : Js.value;
  u_designation : Js.value;
  u_contact : Js.value;
  u_timetable_link : Js.value
}.

End Http.

(* ================================================================== *)
(** ** Upload storage (the same in both variants) *)
(* ================================================================== *)

Module Upload.
Import Http.

(** [destination]: the directory, below [__dirname], chosen by the name of
    the form field; no directory for any other field. *)
Definition destination (fieldname : string) : option string :=
  if (fieldname =? "syllabus")%string then Some "uploads/syllabus"
  else if (fieldname =? "mentor_photo")%string then Some "uploads/mentors"
  else None.

(** [filename]: [Date.now() + "_" + safeName]. *)
Definition filename (f : upload) : string :=
  let safeName := Js.replace_spaces (originalname f) in
  (Js.string_of_N (received f) ++ "_" ++ safeName)%string.

(** The file written for one field, as a path below [__dirname]. *)
Definition stored_path (fieldname : string) (f : upload) : option string :=
  match destination fieldname with
  | Some dir => Some (dir ++ "/" ++ filename f)%string
  | None => None
  end.

Definition written (fieldname : string) (f : option upload) : list string :=
  match f with
  | Some u =>
      match stored_path fieldname u with
      | Some p => [p]
      | None => []
      end
  | None => []
  end.

(** [upload.fields([syllabus, mentor_photo])]: the files of the form are
    written before the handler runs. *)
Definition store_files (f : add_form) (st : Sql.state) : Sql.state :=
  {| Sql.table := Sql.table st;
     Sql.serial := Sql.serial st;
     Sql.disk := Sql.disk st ++ written "syllabus" (a_syllabus f)
                              ++ written "mentor_photo" (a_mentor_photo f) |}.

(** [req.files.syllabus
      ? "/uploads/syllabus/" + req.files.syllabus[0].filename : null] *)
Definition syllabusPath (f : add_form) : option string :=
  match a_syllabus f with
  | Some u => Some ("/uploads/syllabus/" ++ filename u)%string
  | None => None
  end.

(** [req.files.mentor_photo
      ? "/uploads/mentors/" + req.files.mentor_photo[0].filename : null] *)
Definition photoPath (f : add_form) : option string :=
  match a_mentor_photo f with
  | Some u => Some ("/uploads/mentors/" ++ filename u)%string
  | None => None
  end.

End Upload.


(* ================================================================== *)
(** ** The PostgreSQL variant ([src/server.js]) *)
(* ================================================================== *)

Module Postgres.
Import Http.

Section Handlers.
Variable StringToNumber : string -> Js.number.
Variable text_to_int : string -> option Z.
(** The ascending order of [ORDER BY] on text (the collation). *)
Variable collate : string -> string -> bool.

(** [SELECT DISTINCT class_name FROM class_semester_info ORDER BY class_name] *)
Definition select_classes (t : list Sql.row) : list (option string) :=
  Rel.order_by (Rel.le_nullable false collate)
    (Rel.distinct (Rel.eqb_option String.eqb) (map Sql.class_name t)).

Definition classes (st : Sql.state) (fault : bool) : response :=
  if fault then Reply 500 (JArray [])
  else Reply 200 (JArray (map ClassName (select_classes (Sql.table st)))).

(** [SELECT DISTINCT semester ... WHERE class_name=$1 ORDER BY semester] *)
Definition select_semesters (cls : option string) (t : list Sql.row)
    : list (option Z) :=
  Rel.order_by (Rel.le_nullable false Z.leb)
    (Rel.distinct (Rel.eqb_option Z.eqb)
       (map Sql.semester
          (filter (fun r => Sql.text_eq (Sql.class_name r) cls) t))).

Definition semesters (cls : option string) (st : Sql.state) (fault : bool)
    : response :=
  if fault then Reply 500 (JArray [])
  else Reply 200 (JArray (map Semester (select_semesters cls (Sql.table st)))).

(** [WHERE class_name=$1 AND semester=$2 AND section IS NOT NULL
     AND TRIM(section) <> ''] *)
Definition sections_where (cls sem : option string) (r : Sql.row) : bool :=
  Sql.text_eq (Sql.class_name r) cls
  && Sql.int_eq (Sql.semester r) (Sql.int_of_text text_to_int sem)
  && negb (Sql.is_null (Sql.section r))
  && Sql.trim_not_empty (Sql.section r).

Definition select_sections (cls sem : option string) (t : list Sql.row)
    : list (option string) :=
  Rel.distinct (Rel.eqb_option String.eqb)
    (map Sql.section (filter (sections_where cls sem) t)).

Definition sections (cls sem : option string) (st : Sql.state) (fault : bool)
    : response :=
  if fault then Reply 500 (JArray [])
  else Reply 200
         (JArray (map Section_ (select_sections cls sem (Sql.table st)))).

(** [WHERE TRIM(class_name)=$1 AND semester=$2 AND TRIM(section)=$3] *)
Definition details_where_section (className : option string)
    (semester : Js.number) (section : string) (r : Sql.row) : bool :=
  Sql.text_eq (option_map Sql.TRIM (Sql.class_name r)) className
  && Sql.int_eq (Sql.semester r) (Sql.int_param text_to_int (Js.Num semester))
  && Sql.text_eq (option_map Sql.TRIM (Sql.section r)) (Some section).

(** [WHERE TRIM(class_name)=$1 AND semester=$2
     AND (section IS NULL OR TRIM(section)='')] *)
Definition details_where_no_section (className : option string)
    (semester : Js.number) (r : Sql.row) : bool :=
  Sql.text_eq (option_map Sql.TRIM (Sql.class_name r)) className
  && Sql.int_eq (Sql.semester r) (Sql.int_param text_to_int (Js.Num semester))
  && (Sql.is_null (Sql.section r) || Sql.trim_is_empty (Sql.section r)).

(** The rows of [result] in the details handler. *)
Definition details_rows (q : details_query) (t : list Sql.row)
    : list Sql.row :=
  let className := option_map Js.trim (q_class q) in
  let semester := Js.Number StringToNumber (q_semester q) in
  let section := Js.trim (Js.or_empty (q_section q)) in
  if Js.truthy section
  then Rel.limit1 (filter (details_where_section className semester section) t)
  else Rel.limit1 (filter (details_where_no_section className semester) t).

Definition details (q : details_query) (st : Sql.state) (fault : bool)
    : response :=
  if fault then Reply 500 JNull
  else match details_rows q (Sql.table st) with
       | [] => Reply 200 JNull
       | r :: _ => Reply 200 (JRecord r)
       end.

(** The parameters $1..$8 of the INSERT. *)
Definition add_fields (f : add_form) : Sql.fields :=
  {| Sql.v_class_name := Some (Js.trim (Js.or_empty (a_class_name f)));
     Sql.v_semester :=
       Sql.int_param text_to_int
         (Js.Num (Js.Number StringToNumber (a_semester f)));
     Sql.v_section := Some (Js.trim (Js.or_empty (a_section f)));
     Sql.v_academic_year := Some (Js.trim (Js.or_empty (a_academic_year f)));
     Sql.v_mentor_name := Some (Js.trim (Js.or_empty (a_mentor_name f)));
     Sql.v_designation := Some (Js.trim (Js.or_empty (a_designation f)));
     Sql.v_contact := Some (Js.trim (Js.or_empty (a_contact f)));
     Sql.v_timetable_link :=
       match a_timetable_link f with
       | Some s => if Js.truthy s then Some (Js.trim s) else None
       | None => None
       end |}.

Definition add (f : add_form) (st : Sql.state) (fault : bool)
    : response * Sql.state :=
  let st := Upload.store_files f st in
  if fault then (Reply 500 (JError "Insert failed"), st)
  else (Reply 200 (JMessage "Record added successfully"),
        Sql.insert_row (add_fields f)
          (Upload.syllabusPath f) (Upload.photoPath f) st).

(** [SELECT id, class_name, semester, section, mentor_name, designation
     ... ORDER BY class_name, semester] *)
Definition select_records (t : list Sql.row) : list summary :=
  map summary_of (Rel.order_by (Sql.le_class_semester false collate) t).

Definition records (st : Sql.state) (fault : bool) : response :=
  if fault then Reply 500 (JArray [])
  else Reply 200 (JArray (map Summary (select_records (Sql.table st)))).

(** The parameters $1..$8 of the UPDATE. *)
Definition update_fields (b : update_body) : Js.result Sql.fields :=
  cn <- Js.opt_trim (u_class_name b) ;;
  sec <- Js.opt_trim (u_section b) ;;
  ay <- Js.opt_trim (u_academic_year b) ;;
  mn <- Js.opt_trim (u_mentor_name b) ;;
  dg <- Js.opt_trim (u_designation b) ;;
  ct <- Js.opt_trim (u_contact b) ;;
  tl <- Js.opt_trim (u_timetable_link b) ;;
  Js.Ok {| Sql.v_class_name := cn;
           Sql.v_semester := Sql.int_param text_to_int (u_semester b);
           Sql.v_section := Some (Js.or_empty sec);
           Sql.v_academic_year := ay;
           Sql.v_mentor_name := mn;
           Sql.v_designation := dg;
           Sql.v_contact := ct;
           Sql.v_timetable_link := tl |}.

(** The whole handler body is inside [try]: a TypeError and a store fault
    both end in the [catch]. *)
Definition update (id : string) (b : update_body) (st : Sql.state)
    (fault : bool) : response * Sql.state :=
  match update_fields b with
  | Js.TypeError => (Reply 500 (JError "Update failed"), st)
  | Js.Ok v =>
      if fault then (Reply 500 (JError "Update failed"), st)
      else (Reply 200 (JMessage "Record updated successfully"),
            Sql.with_table
              (Sql.update_where_id (text_to_int id) (Sql.set_fields v)
                 (Sql.table st)) st)
  end.

Definition delete (id : string) (st : Sql.state) (fault : bool)
    : response * Sql.state :=
  if fault then (Reply 500 (JError "Delete failed"), st)
  else (Reply 200 (JMessage "Record deleted successfully"),
        Sql.with_table
          (Sql.delete_where_id (text_to_int id) (Sql.table st)) st).

End Handlers.
End Postgres.


(* ================================================================== *)
(** ** The MySQL variant (the second source file) *)
(* ================================================================== *)

Module MySQL.
Import Http.

Section Handlers.
Variable StringToNumber : string -> Js.number.
Variable text_to_int : string -> option Z.
Variable collate : string -> string -> bool.

(** [SELECT DISTINCT class_name FROM class_semester_info] *)
Definition select_classes (t : list Sql.row) : list (option string) :=
  Rel.distinct (Rel.eqb_option String.eqb) (map Sql.class_name t).

Definition classes (st : Sql.state) (fault : bool) : response :=
  if fault then Reply 500 (JArray [])
  else Reply 200 (JArray (map ClassName (select_classes (Sql.table st)))).

(** [SELECT DISTINCT semester FROM class_semester_info WHERE class_name=?] *)
Definition select_semesters (cls : option string) (t : list Sql.row)
    : list (option Z) :=
  Rel.distinct (Rel.eqb_option Z.eqb)
    (map Sql.semester
       (filter (fun r => Sql.text_eq (Sql.class_name r) cls) t)).

Definition semesters (cls : option string) (st : Sql.state) (fault : bool)
    : response :=
  if fault then Reply 500 (JArray [])
  else Reply 200 (JArray (map Semester (select_semesters cls (Sql.table st)))).

(** [WHERE class_name=? AND semester=? AND section IS NOT NULL
     AND section!=''] *)
Definition sections_where (cls sem : option string) (r : Sql.row) : bool :=
  Sql.text_eq (Sql.class_name r) cls
  && Sql.int_eq (Sql.semester r) (Sql.int_of_text text_to_int sem)
  && negb (Sql.is_null (Sql.section r))
  && Sql.not_empty (Sql.section r).

Definition select_sections (cls sem : option string) (t : list Sql.row)
    : list (option string) :=
  Rel.distinct (Rel.eqb_option String.eqb)
    (map Sql.section (filter (sections_where cls sem) t)).

Definition sections (cls sem : option string) (st : Sql.state) (fault : bool)
    : response :=
  if fault then Reply 500 (JArray [])
  else Reply 200
         (JArray (map Section_ (select_sections cls sem (Sql.table st)))).

(** [WHERE TRIM(class_name)=? AND semester=? AND TRIM(section)=?] *)
Definition details_where_section (className : option string)
    (semester : Js.number) (section : string) (r : Sql.row) : bool :=
  Sql.text_eq (option_map Sql.TRIM (Sql.class_name r)) className
  && Sql.int_eq (Sql.semester r) (Sql.int_param text_to_int (Js.Num semester))
  && Sql.text_eq (option_map Sql.TRIM (Sql.section r)) (Some section).

(** [WHERE TRIM(class_name)=? AND semester=?
     AND (section IS NULL OR TRIM(section)='')] *)
Definition details_where_no_section (className : option string)
    (semester : Js.number) (r : Sql.row) : bool :=
  Sql.text_eq (option_map Sql.TRIM (Sql.class_name r)) className
  && Sql.int_eq (Sql.semester r) (Sql.int_param text_to_int (Js.Num semester))
  && (Sql.is_null (Sql.section r) || Sql.trim_is_empty (Sql.section r)).

Definition details_rows (q : details_query) (t : list Sql.row)
    : list Sql.row :=
  let className := option_map Js.trim (q_class q) in
  let semester := Js.Number StringToNumber (q_semester q) in
  let section := Js.trim (Js.or_empty (q_section q)) in
  if Js.truthy section
  then Rel.limit1 (filter (details_where_section className semester section) t)
  else Rel.limit1 (filter (details_where_no_section className semester) t).

Definition details (q : details_query) (st : Sql.state) (fault : bool)
    : response :=
  if fault then Reply 500 JNull
  else match details_rows q (Sql.table st) with
       | [] => Reply 200 JNull
       | r :: _ => Reply 200 (JRecord r)
       end.

(** The first eight placeholders of the INSERT: [x?.trim()] on the text
    fields of the form, [section?.trim() || ""], and [semester] as it came. *)
Definition add_fields (f : add_form) : Sql.fields :=
  {| Sql.v_class_name := option_map Js.trim (a_class_name f);
     Sql.v_semester := Sql.int_of_text text_to_int (a_semester f);
     Sql.v_section := Some (Js.or_empty (option_map Js.trim (a_section f)));
     Sql.v_academic_year := option_map Js.trim (a_academic_year f);
     Sql.v_mentor_name := option_map Js.trim (a_mentor_name f);
     Sql.v_designation := option_map Js.trim (a_designation f);
     Sql.v_contact := option_map Js.trim (a_contact f);
     Sql.v_timetable_link := option_map Js.trim (a_timetable_link f) |}.

Definition add (f : add_form) (st : Sql.state) (fault : bool)
    : response * Sql.state :=
  let st := Upload.store_files f st in
  if fault then (Reply 500 (JError "Insert failed"), st)
  else (Reply 200 (JMessage "Record added successfully"),
        Sql.insert_row (add_fields f)
          (Upload.syllabusPath f) (Upload.photoPath f) st).

(** [SELECT id, class_name, semester, section, mentor_name, designation
     ... ORDER BY class_name, semester] *)
Definition select_records (t : list Sql.row) : list summary :=
  map summary_of (Rel.order_by (Sql.le_class_semester true collate) t).

Definition records (st : Sql.state) (fault : bool) : response :=
  if fault then Reply 500 (JArray [])
  else Reply 200 (JArray (map Summary (select_records (Sql.table st)))).

(** The first eight placeholders of the UPDATE. *)
Definition update_fields (b : update_body) : Js.result Sql.fields :=
  cn <- Js.opt_trim (u_class_name b) ;;
  sec <- Js.opt_trim (u_section b) ;;
  ay <- Js.opt_trim (u_academic_year b) ;;
  mn <- Js.opt_trim (u_mentor_name b) ;;
  dg <- Js.opt_trim (u_designation b) ;;
  ct <- Js.opt_trim (u_contact b) ;;
  tl <- Js.opt_trim (u_timetable_link b) ;;
  Js.Ok {| Sql.v_class_name := cn;
           Sql.v_semester := Sql.int_param text_to_int (u_semester b);
           Sql.v_section := Some (Js.or_empty sec);
           Sql.v_academic_year := ay;
           Sql.v_mentor_name := mn;
           Sql.v_designation := dg;
           Sql.v_contact := ct;
           Sql.v_timetable_link := tl |}.

(** No [try] here: a TypeError raised while the placeholders are computed
    escapes the handler, before any statement is sent. *)
Definition update (id : string) (b : update_body) (st : Sql.state)
    (fault : bool) : response * Sql.state :=
  match update_fields b with
  | Js.TypeError => (Raised, st)
  | Js.Ok v =>
      if fault then (Reply 500 (JError "Update failed"), st)
      else (Reply 200 (JMessage "Record updated successfully"),
            Sql.with_table
              (Sql.update_where_id (text_to_int id) (Sql.set_fields v)
                 (Sql.table st)) st)
  end.

Definition delete (id : string) (st : Sql.state) (fault : bool)
    : response * Sql.state :=
  if fault then (Reply 500 (JError "Delete failed"), st)
  else (Reply 200 (JMessage "Record deleted successfully"),
        Sql.with_table
          (Sql.delete_where_id (text_to_int id) (Sql.table st)) st).

End Handlers.
End MySQL.

(* ================================================================== *)
(** ** The routes of the service, for either variant *)
(* ================================================================== *)

Module Portal.
Import Http.

Inductive backend : Type :=
| PostgreSQL
| MySQL_.

Inductive request : Type :=
| GetClasses
| GetSemesters (cls : option string)
| GetSections (cls sem : option string)
| GetDetails (q : details_query)
| PostAdd (f : add_form)
| GetRecords
| PutUpdate (id : string) (b : update_body)
| DeleteRecord (id : string).

Section Routes.
Variable StringToNumber : string -> Js.number.
Variable text_to_int : string -> option Z.
Variable collate : string -> string -> bool.

Definition handle (v : backend) (rq : request) (st : Sql.state)
    (fault : bool) : response * Sql.state :=
  match v, rq with
  | PostgreSQL, GetClasses => (Postgres.classes collate st fault, st)
  | PostgreSQL, GetSemesters c => (Postgres.semesters c st fault, st)
  | PostgreSQL, GetSections c s =>
      (Postgres.sections text_to_int c s st fault, st)
  | PostgreSQL, GetDetails q =>
      (Postgres.details StringToNumber text_to_int q st fault, st)
  | PostgreSQL, PostAdd f => Postgres.add StringToNumber text_to_int f st fault
  | PostgreSQL, GetRecords => (Postgres.records collate st fault, st)
  | PostgreSQL, PutUpdate i b => Postgres.update text_to_int i b st fault
  | PostgreSQL, DeleteRecord i => Postgres.delete text_to_int i st fault
  | MySQL_, GetClasses => (MySQL.classes st fault, st)
  | MySQL_, GetSemesters c => (MySQL.semesters c st fault, st)
  | MySQL_, GetSections c s => (MySQL.sections text_to_int c s st fault, st)
  | MySQL_, GetDetails q =>
      (MySQL.details StringToNumber text_to_int q st fault, st)
  | MySQL_, PostAdd f => MySQL.add text_to_int f st fault
  | MySQL_, GetRecords => (MySQL.records collate st fault, st)
  | MySQL_, PutUpdate i b => MySQL.update text_to_int i b st fault
  | MySQL_, DeleteRecord i => MySQL.delete text_to_int i st fault
  end.

End Routes.
End Portal.


(* ================================================================== *)
(** ** Concrete conversions and sample data for the examples *)
(* ================================================================== *)

Module Sample.
Import Http.

Definition digit (c : ascii) : option Z :=
  let n := Z.of_N (N_of_ascii c) in
  if (48 <=? n) && (n <=? 57) then Some (n - 48) else None.

Fixpoint digits (acc : Z) (s : string) : option Z :=
  match s with
  | EmptyString => Some acc
  | String c r =>
      match digit c with
      | Some d => digits (10 * acc + d) r
      | None => None
      end
  end.

(** Reads an unsigned decimal literal. *)
Definition decimal (s : string) : option Z :=
  match s with
  | EmptyString => None
  | _ => digits 0 s
  end.

(** An instance of [StringToNumber] for the examples: white space around the
    literal is ignored, the empty string is 0, an unsigned decimal literal is
    its value.  Every other string is taken as NaN, which is what the engine
    answers for a word such as "xyz"; signs, fractions, exponents and the
    other numeric forms of the engine are not read by this instance. *)
Definition StringToNumber (s : string) : Js.number :=
  let t := Js.trim s in
  if (t =? "")%string then Js.Int 0
  else match decimal t with
       | Some z => Js.Int z
       | None => Js.NaN
       end.

(** An instance of the store's input conversion: unsigned decimal text. *)
Definition text_to_int (s : string) : option Z := decimal s.

(** An instance of the collation: code-unit order. *)
Definition collate (a b : string) : bool := String.leb a b.

Definition blank (i : Z) (cn : string) (sem : Z) (sec : option string)
    : Sql.row :=
  {| Sql.id := i;
     Sql.class_name := Some cn;
     Sql.semester := Some sem;
     Sql.section := sec;
     Sql.academic_year := Some "2024-25";
     Sql.mentor_name := Some "A";
     Sql.designation := Some "Professor";
     Sql.contact := Some "";
     Sql.timetable_link := None;
     Sql.syllabus_link := None;
     Sql.mentor_photo := None |}.

Definition store (t : list Sql.row) : Sql.state :=
  {| Sql.table := t; Sql.serial := 100; Sql.disk := [] |}.


Definition math_form : add_form :=
  {| a_class_name := Some " Math "; a_semester := Some "1";
     a_section := Some "  "; a_academic_year := Some "2024-25";
     a_mentor_name := Some "A"; a_designation := Some "Professor";
     a_contact := Some "12345"; a_timetable_link := Some "";
     a_syllabus :=
       Some {| originalname := "my  syllabus 2024.pdf";
               received := 1700000000000 |};
     a_mentor_photo := None |}.

Definition math_body : update_body :=
  {| u_class_name := Js.Str " Math "; u_semester := Js.Num (Js.Int 2);
     u_section := Js.Str " B "; u_academic_year := Js.Str "2025-26";
     u_mentor_name := Js.Str "B"; u_designation := Js.Undefined;
     u_contact := Js.Null; u_timetable_link := Js.Str "" |}.

(** A table with one record per section of CS101, semester 3, and one
    record without section. *)
Definition cs101 : list Sql.row :=
  [ Sample.blank 1 " CS101" 3 (Some "A ");
    Sample.blank 2 "CS101" 3 (Some "B");
    Sample.blank 3 "CS101" 3 None;
    Sample.blank 4 "CS101" 4 (Some "") ].

End Sample.

(* ================================================================== *)
(** ** The statements the handlers are checked against *)
(* ================================================================== *)

Module Spec.
Import Http.

(** A list in ascending order for the boolean order [le]. *)
Definition ascending {A : Type} (le : A -> A -> bool) (l : list A) : Prop :=
  Sorted (fun x y => le x y = true) l.

(** An order in which any two values are comparable. *)
Definition total {A : Type} (le : A -> A -> bool) : Prop :=
  forall a b, le a b = true \/ le b a = true.

(** The class names of a table. *)
Definition names_of (t : list Sql.row) : list (option string) :=
  map Sql.class_name t.

(** [l] holds exactly the values of [all], each once. *)
Definition distinct_values {A : Type} (l all : list A) : Prop :=
  NoDup l /\ forall x, In x l <-> In x all.

(** The semester values of the records of class [cls]. *)
Definition semester_of_class (cls : option string) (t : list Sql.row)
    (s : option Z) : Prop :=
  exists r c, In r t /\ cls = Some c /\ Sql.class_name r = Some c
              /\ Sql.semester r = s.

(** The record belongs to the class and semester asked for: its class name,
    trimmed, is the trimmed input class and its semester is the numeric
    input. *)
Definition of_class_and_semester (cls : option string) (sem : Js.number)
    (r : Sql.row) : Prop :=
  (exists cn c, Sql.class_name r = Some cn /\ cls = Some c
                /\ Sql.TRIM cn = Js.trim c)
  /\ (exists z, sem = Js.Int z /\ Sql.semester r = Some z).

(** The stored section, trimmed, is the trimmed section asked for. *)
Definition has_section (sec : string) (r : Sql.row) : Prop :=
  exists s, Sql.section r = Some s /\ Sql.TRIM s = Js.trim sec.

(** The stored section is NULL or empty after trimming. *)
Definition has_no_section (r : Sql.row) : Prop :=
  Sql.section r = None
  \/ exists s, Sql.section r = Some s /\ Sql.TRIM s = "".

Section Wanted.
Variable StringToNumber : string -> Js.number.

(** The records a details request asks for. *)
Definition wanted (q : details_query) (r : Sql.row) : Prop :=
  of_class_and_semester (q_class q)
    (Js.Number StringToNumber (q_semester q)) r
  /\ match q_section q with
     | Some s => if (Js.trim s =? "")%string then has_no_section r
                 else has_section s r
     | None => has_no_section r
     end.
End Wanted.

(** The answer [resp] of the classes lookup on table [t] lists the class
    names present, each once. *)
Definition lists_names (resp : response) (t : list Sql.row) : Prop :=
  exists l, resp = Reply 200 (JArray (map ClassName l))
            /\ distinct_values l (names_of t).

(** The same, in ascending order of the names. *)
Definition lists_names_sorted (collate : string -> string -> bool)
    (resp : response) (t : list Sql.row) : Prop :=
  exists l, resp = Reply 200 (JArray (map ClassName l))
            /\ distinct_values l (names_of t)
            /\ ascending (Rel.le_nullable false collate) l.

(** The answer [resp] of the semesters lookup for [cls] on table [t] lists
    the semesters of that class without duplicates, and is the empty array
    when no record is of that class. *)
Definition lists_semesters (resp : response) (cls : option string)
    (t : list Sql.row) : Prop :=
  exists l, resp = Reply 200 (JArray (map Semester l))
            /\ NoDup l
            /\ (forall s, In s l <-> semester_of_class cls t s)
            /\ ((forall s, ~ semester_of_class cls t s) -> l = []).

(** The same, in ascending order. *)
Definition lists_semesters_sorted (resp : response) (cls : option string)
    (t : list Sql.row) : Prop :=
  exists l, resp = Reply 200 (JArray (map Semester l))
            /\ NoDup l
            /\ (forall s, In s l <-> semester_of_class cls t s)
            /\ ((forall s, ~ semester_of_class cls t s) -> l = [])
            /\ ascending (Rel.le_nullable false Z.leb) l.


(** The string holds no white space. *)
Definition no_space (s : string) : Prop :=
  Forall (fun c => Js.is_space c = false) (list_ascii_of_string s).

(** Every white-space character replaced by an underscore, one for one. *)
Fixpoint underscored (s : string) : string :=
  match s with
  | EmptyString => EmptyString
  | String c r => String (if Js.is_space c then "_"%char else c) (underscored r)
  end.

(** No two white-space characters stand next to each other. *)
Fixpoint single_spaced (s : string) : bool :=
  match s with
  | String c ((String d _) as r) =>
      negb (Js.is_space c && Js.is_space d) && single_spaced r
  | _ => true
  end.

(** The JSON body that carries the same fields as a form. *)
Definition of_field (x : option string) : Js.value :=
  match x with
  | Some s => Js.Str s
  | None => Js.Undefined
  end.

Definition body_of_form (f : add_form) : update_body :=
  {| u_class_name := of_field (a_class_name f);
     u_semester := of_field (a_semester f);
     u_section := of_field (a_section f);
     u_academic_year := of_field (a_academic_year f);
     u_mentor_name := of_field (a_mentor_name f);
     u_designation := of_field (a_designation f);
     u_contact := of_field (a_contact f);
     u_timetable_link := of_field (a_timetable_link f) |}.


(** The classification and descriptive columns of a record. *)
Definition fields_of (r : Sql.row) : Sql.fields :=
  {| Sql.v_class_name := Sql.class_name r;
     Sql.v_semester := Sql.semester r;
     Sql.v_section := Sql.section r;
     Sql.v_academic_year := Sql.academic_year r;
     Sql.v_mentor_name := Sql.mentor_name r;
     Sql.v_designation := Sql.designation r;
     Sql.v_contact := Sql.contact r;
     Sql.v_timetable_link := Sql.timetable_link r |}.

(** [x?.trim()] succeeds on [v]. *)
Definition trimmable (v : Js.value) : bool :=
  match v with
  | Js.Undefined | Js.Null | Js.Str _ => true
  | Js.Num _ | Js.Other => false
  end.

(** Every text field of the body is a string, null or absent. *)
Definition text_fields (b : update_body) : bool :=
  trimmable (u_class_name b) && trimmable (u_section b)
  && trimmable (u_academic_year b) && trimmable (u_mentor_name b)
  && trimmable (u_designation b) && trimmable (u_contact b)
  && trimmable (u_timetable_link b).

(** The text [x?.trim()] sends to the store: the trimmed string, or NULL for
    a field that is null or absent. *)
Definition trimmed (v : Js.value) : option string :=
  match v with
  | Js.Str s => Some (Js.trim s)
  | _ => None
  end.

(** The section both write paths persist for a submitted section. *)
Definition section_written (v : Js.value) : option string :=
  match v with
  | Js.Str s => Some (Js.trim s)
  | _ => Some ""
  end.

(** The request gets as far as sending its statement to the store. *)
Definition sends_statement (rq : Portal.request) : bool :=
  match rq with
  | Portal.PutUpdate _ b => text_fields b
  | _ => true
  end.

(** The body each route sends with status 500 on a store fault. *)
Definition fault_body (rq : Portal.request) : body :=
  match rq with
  | Portal.GetClasses | Portal.GetSemesters _ | Portal.GetSections _ _
  | Portal.GetRecords => JArray []
  | Portal.GetDetails _ => JNull
  | Portal.PostAdd _ => JError "Insert failed"
  | Portal.PutUpdate _ _ => JError "Update failed"
  | Portal.DeleteRecord _ => JError "Delete failed"
  end.

(** The body of a lookup that found nothing, and of an update or a delete
    that touched no row. *)
Definition not_found_body (rq : Portal.request) : body :=
  match rq with
  | Portal.GetClasses | Portal.GetSemesters _ | Portal.GetSections _ _
  | Portal.GetRecords => JArray []
  | Portal.GetDetails _ => JNull
  | Portal.PostAdd _ => JMessage "Record added successfully"
  | Portal.PutUpdate _ _ => JMessage "Record updated successfully"
  | Portal.DeleteRecord _ => JMessage "Record deleted successfully"
  end.

Section Selected.
Variable StringToNumber : string -> Js.number.
Variable text_to_int : string -> option Z.

Definition id_is (id : string) (r : Sql.row) : bool :=
  Sql.int_eq (Some (Sql.id r)) (text_to_int id).

(** The rows the WHERE clause of a request selects; an INSERT selects
    none and is no lookup. *)
Definition selected (v : Portal.backend) (rq : Portal.request)
    (t : list Sql.row) : option (list Sql.row) :=
  match rq with
  | Portal.GetClasses | Portal.GetRecords => Some t
  | Portal.GetSemesters c =>
      Some (filter (fun r => Sql.text_eq (Sql.class_name r) c) t)
  | Portal.GetSections c s =>
      match v with
      | Portal.PostgreSQL =>
          Some (filter (Postgres.sections_where text_to_int c s) t)
      | Portal.MySQL_ =>
          Some (filter (MySQL.sections_where text_to_int c s) t)
      end
  | Portal.GetDetails q =>
      match v with
      | Portal.PostgreSQL =>
          Some (Postgres.details_rows StringToNumber text_to_int q t)
      | Portal.MySQL_ =>
          Some (MySQL.details_rows StringToNumber text_to_int q t)
      end
  | Portal.PostAdd _ => None
  | Portal.PutUpdate id _ | Portal.DeleteRecord id => Some (filter (id_is id) t)
  end.

(** The values an update writes, field by field: every text field trimmed,
    or NULL when it is null or absent; the section, which defaults to the
    empty string; the semester as the store reads the submitted value. *)
Definition written_fields (b : update_body) : Sql.fields :=
  {| Sql.v_class_name := trimmed (u_class_name b);
     Sql.v_semester := Sql.int_param text_to_int (u_semester b);
     Sql.v_section := section_written (u_section b);
     Sql.v_academic_year := trimmed (u_academic_year b);
     Sql.v_mentor_name := trimmed (u_mentor_name b);
     Sql.v_designation := trimmed (u_designation b);
     Sql.v_contact := trimmed (u_contact b);
     Sql.v_timetable_link := trimmed (u_timetable_link b) |}.


Definition add_rules (v : Portal.backend) (f : add_form) : Sql.fields :=
  match v with
  | Portal.PostgreSQL => Postgres.add_fields StringToNumber text_to_int f
  | Portal.MySQL_ => MySQL.add_fields text_to_int f
  end.



(** The filter of the statement the details handler chooses. *)
Definition chosen_filter (q : details_query) (r : Sql.row) : bool :=
  let className := option_map Js.trim (q_class q) in
  let semester := Js.Number StringToNumber (q_semester q) in
  let section := Js.trim (Js.or_empty (q_section q)) in
  if Js.truthy section
  then Postgres.details_where_section text_to_int className semester section r
  else Postgres.details_where_no_section text_to_int className semester r.

(** A record of the class and semester asked for that carries the section
    [s], and [s] is not empty after trimming. *)
Definition carries (cls sem : option string) (t : list Sql.row)
    (o : option string) : Prop :=
  exists r c z s,
    In r t /\ cls = Some c /\ Sql.class_name r = Some c
    /\ Sql.int_of_text text_to_int sem = Some z /\ Sql.semester r = Some z
    /\ o = Some s /\ Sql.section r = Some s /\ Sql.TRIM s <> "".

(** States the service can be in: it starts on an empty table, and every
    later state comes from a request to one of the routes. *)
Inductive reachable (v : Portal.backend) (collate : string -> string -> bool)
    : Sql.state -> Prop :=
| reach_init : forall n d,
    reachable v collate {| Sql.table := []; Sql.serial := n; Sql.disk := d |}
| reach_step : forall st rq fault,
    reachable v collate st ->
    reachable v collate
      (snd (Portal.handle StringToNumber text_to_int collate v rq st fault)).
End Selected.

End Spec.


(* ================================================================== *)
(** ** Statements about the routes taken together *)
(* ================================================================== *)

Module Flow.
Import Http.

(** The string does not begin with a character of [p]. *)
Definition head_ok (p : ascii -> bool) (s : string) : Prop :=
  match s with
  | String c _ => p c = false
  | EmptyString => True
  end.

(** A stored text is NULL or has no white space at either end. *)
Definition trimmed_text (o : option string) : Prop :=
  match o with
  | Some s => Js.trim s = s
  | None => True
  end.

(** The seven text values of an INSERT or UPDATE are trimmed. *)
Definition tidy_fields (v : Sql.fields) : Prop :=
  trimmed_text (Sql.v_class_name v)
  /\ trimmed_text (Sql.v_section v)
  /\ trimmed_text (Sql.v_academic_year v)
  /\ trimmed_text (Sql.v_mentor_name v)
  /\ trimmed_text (Sql.v_designation v)
  /\ trimmed_text (Sql.v_contact v)
  /\ trimmed_text (Sql.v_timetable_link v).

(** The classification and descriptive text of a record is trimmed. *)
Definition tidy (r : Sql.row) : Prop := tidy_fields (Spec.fields_of r).

(** The answer [resp] of the admin listing on table [t]: one summary for
    every record, ordered by class name, then semester. *)
Definition lists_records (nulls_first : bool)
    (collate : string -> string -> bool) (resp : response)
    (t : list Sql.row) : Prop :=
  exists l, resp = Reply 200 (JArray (map Summary (map summary_of l)))
            /\ Permutation l t
            /\ Spec.ascending (Sql.le_class_semester nulls_first collate) l.

(** A record of the class and semester asked for carries the section [o],
    and [o] is not the empty string. *)
Definition carries_exact (text_to_int : string -> option Z)
    (cls sem : option string) (t : list Sql.row) (o : option string)
    : Prop :=
  exists r c z s,
    In r t /\ cls = Some c /\ Sql.class_name r = Some c
    /\ Sql.int_of_text text_to_int sem = Some z /\ Sql.semester r = Some z
    /\ o = Some s /\ Sql.section r = Some s /\ s <> "".

(** The answer [resp] lists, each once, the sections that satisfy [P]. *)
Definition lists_sections (resp : response) (P : option string -> Prop)
    : Prop :=
  exists l, resp = Reply 200 (JArray (map Section_ l))
            /\ NoDup l /\ forall o, In o l <-> P o.

(** The string holds no underscore. *)
Definition no_underscore (s : string) : Prop :=
  Forall (fun c => c <> "_"%char) (list_ascii_of_string s).

(** An attachment link is NULL or the public path ("/" and the path below
    [__dirname]) of a file on disk. *)
Definition link_ok (files : list string) (link : option string) : Prop :=
  match link with
  | Some p => exists f, In f files /\ p = ("/" ++ f)%string
  | None => True
  end.

(** Both attachment links of every record point to files on disk. *)
Definition linked (st : Sql.state) : Prop :=
  Forall (fun r => link_ok (Sql.disk st) (Sql.syllabus_link r)
                   /\ link_ok (Sql.disk st) (Sql.mentor_photo r))
    (Sql.table st).

(** The files the upload middleware writes for a form. *)
Definition files_of (f : add_form) : list string :=
  (Upload.written "syllabus" (a_syllabus f)
   ++ Upload.written "mentor_photo" (a_mentor_photo f))%list.

(** The files a request adds to the disk. *)
Definition files_added (rq : Portal.request) : list string :=
  match rq with
  | Portal.PostAdd f => files_of f
  | _ => []
  end.

(** The answer is one record, and it satisfies [P]. *)
Definition is_record (resp : response) (P : Sql.row -> Prop) : Prop :=
  exists r, resp = Reply 200 (JRecord r) /\ P r.

End Flow.

(* ================================================================== *)
(** ** What the stores accept for an integer column *)
(* ================================================================== *)

Module Store.
Import Http.

(** A number bound to the integer column [semester].  [pg] sends a number as
    its text, [mysql2] writes it into the statement; NaN arrives as the word
    NaN.  PostgreSQL answers "invalid input syntax for type integer", MySQL
    takes the bare word for a column the table does not have: with NaN bound
    the statement raises in both stores, whatever the table holds.  For the
    other numbers nothing is fixed here: what a store does with a fraction
    differs between the two, and is left to the environment. *)
Definition raises_on (n : Js.number) : bool :=
  match n with
  | Js.NaN => true
  | Js.Int _ | Js.Frac => false
  end.

Section Served.
Variable StringToNumber : string -> Js.number.
Variable text_to_int : string -> option Z.
Variable collate : string -> string -> bool.


(** The details route together with its store: the statement raises when
    NaN is bound to the semester or for any other reason ([down]), and the
    handler then takes its [catch] (or [err]) branch. *)
Definition details_served (v : Portal.backend) (q : details_query)
    (st : Sql.state) (down : bool) : response :=
  fst (Portal.handle StringToNumber text_to_int collate v
         (Portal.GetDetails q) st
         (down || raises_on (Js.Number StringToNumber (q_semester q)))).
End Served.

End Store.

(* ================================================================== *)
(** * Properties *)
(* ================================================================== *)

(** ** DISTINCT, ORDER BY and LIMIT *)

Module RelFacts.

Section DistinctFacts.
Context {A : Type}.
Variable eqb : A -> A -> bool.
Hypothesis eqb_spec : forall x y, eqb x y = true <-> x = y.

Lemma eqb_refl (x : A) : eqb x x = true.
Proof. now apply eqb_spec. Qed.

Lemma In_distinct (l : list A) (x : A) :
  In x (Rel.distinct eqb l) <-> In x l.
Proof.
  induction l as [| a t IH]; simpl; [tauto |].
  rewrite filter_In, IH. split.
  - intros [H | [H _]]; auto.
  - intros [H | H]; [now left |].
    destruct (eqb a x) eqn:E.
    + left. now apply eqb_spec.
    + right. split; [exact H | reflexivity].
Qed.

Lemma NoDup_distinct (l : list A) : NoDup (Rel.distinct eqb l).
Proof.
  induction l as [| a t IH]; simpl; constructor.
  - rewrite filter_In. intros [_ H]. now rewrite eqb_refl in H.
  - now apply NoDup_filter.
Qed.

Lemma distinct_spec (l : list A) :
  Spec.distinct_values (Rel.distinct eqb l) l.
Proof. split; [apply NoDup_distinct | intros x; apply In_distinct]. Qed.

End DistinctFacts.

Section OrderFacts.
Context {A : Type}.
Variable le : A -> A -> bool.

Lemma insert_perm (x : A) (l : list A) :
  Permutation (Rel.insert le x l) (x :: l).
Proof.
  induction l as [| y t IH]; simpl; [reflexivity |].
  destruct (le x y); [reflexivity |].
  rewrite IH. apply perm_swap.
Qed.

Lemma order_by_perm (l : list A) : Permutation (Rel.order_by le l) l.
Proof.
  induction l as [| x t IH]; simpl; [reflexivity |].
  rewrite insert_perm. now constructor.
Qed.

Lemma In_order_by (l : list A) (x : A) : In x (Rel.order_by le l) <-> In x l.
Proof.
  split; apply Permutation_in;
    [apply order_by_perm | symmetry; apply order_by_perm].
Qed.

Lemma NoDup_order_by (l : list A) : NoDup l -> NoDup (Rel.order_by le l).
Proof.
  apply Permutation_NoDup. symmetry. apply order_by_perm.
Qed.

Lemma order_by_distinct_values (l all : list A) :
  Spec.distinct_values l all ->
  Spec.distinct_values (Rel.order_by le l) all.
Proof.
  intros [N I]. split; [now apply NoDup_order_by |].
  intros x. now rewrite In_order_by.
Qed.

Hypothesis le_total : Spec.total le.

Lemma insert_hd (x a : A) (l : list A) :
  le a x = true ->
  HdRel (fun u v => le u v = true) a l ->
  HdRel (fun u v => le u v = true) a (Rel.insert le x l).
Proof.
  intros Hax H. destruct l as [| y t]; simpl.
  - now constructor.
  - inversion H; subst. destruct (le x y); now constructor.
Qed.

Lemma insert_ascending (x : A) (l : list A) :
  Spec.ascending le l -> Spec.ascending le (Rel.insert le x l).
Proof.
  unfold Spec.ascending.
  induction l as [| y t IH]; simpl; intros H.
  - repeat constructor.
  - inversion H as [| ? ? Ht Hhd]; subst.
    destruct (le x y) eqn:E.
    + constructor; [exact H | now constructor].
    + constructor; [now apply IH |].
      apply insert_hd; [| exact Hhd].
      destruct (le_total x y) as [C | C]; congruence.
Qed.

Lemma order_by_ascending (l : list A) :
  Spec.ascending le (Rel.order_by le l).
Proof.
  induction l as [| x t IH]; simpl.
  - constructor.
  - now apply insert_ascending.
Qed.
End OrderFacts.

Lemma le_nullable_total {A : Type} (nf : bool) (le : A -> A -> bool) :
  Spec.total le -> Spec.total (Rel.le_nullable nf le).
Proof.
  intros T [a |] [b |]; simpl; auto.
  - destruct nf; auto.
  - destruct nf; auto.
Qed.

Lemma Zleb_total : Spec.total Z.leb.
Proof. intros a b. rewrite !Z.leb_le. lia. Qed.

Lemma eqb_option_spec {A : Type} (eqb : A -> A -> bool) :
  (forall x y, eqb x y = true <-> x = y) ->
  forall x y, Rel.eqb_option eqb x y = true <-> x = y.
Proof.
  intros E [a |] [b |]; simpl; try (split; congruence).
  rewrite E. split; congruence.
Qed.

Lemma eqb_option_string (x y : option string) :
  Rel.eqb_option String.eqb x y = true <-> x = y.
Proof. apply eqb_option_spec, String.eqb_eq. Qed.

Lemma eqb_option_Z (x y : option Z) :
  Rel.eqb_option Z.eqb x y = true <-> x = y.
Proof. apply eqb_option_spec, Z.eqb_eq. Qed.

(** [LIMIT 1] over a filter returns nothing exactly when no row passes the
    filter, and otherwise the first row that does. *)
Lemma limit1_filter {A : Type} (p : A -> bool) (l : list A) :
  (Rel.limit1 (filter p l) = [] /\ forall x, In x l -> p x = false)
  \/ (exists x, Rel.limit1 (filter p l) = [x] /\ In x l /\ p x = true).
Proof.
  induction l as [| a t IH]; simpl.
  - left. split; [reflexivity | intros x []].
  - destruct (p a) eqn:E.
    + right. exists a. unfold Rel.limit1. simpl. auto.
    + destruct IH as [[H N] | [x [H [I P]]]].
      * left. split; [exact H |]. intros x [<- | I]; auto.
      * right. exists x. auto.
Qed.

End RelFacts.


(** ** Lookups: classes and semesters *)

Module LookupFacts.
Import Http.

Lemma text_eq_true (col p : option string) :
  Sql.text_eq col p = true <-> exists c, col = Some c /\ p = Some c.
Proof.
  destruct col as [a |], p as [b |]; simpl;
    try (split; [discriminate | intros [c [H1 H2]]; discriminate]).
  rewrite String.eqb_eq. split.
  - intros ->. now exists b.
  - intros [c [H1 H2]]. congruence.
Qed.

Lemma int_eq_true (col p : option Z) :
  Sql.int_eq col p = true <-> exists z, col = Some z /\ p = Some z.
Proof.
  destruct col as [a |], p as [b |]; simpl;
    try (split; [discriminate | intros [c [H1 H2]]; discriminate]).
  rewrite Z.eqb_eq. split.
  - intros ->. now exists b.
  - intros [c [H1 H2]]. congruence.
Qed.

Lemma In_semesters_of_class (cls : option string) (t : list Sql.row)
    (s : option Z) :
  In s (map Sql.semester
          (filter (fun r => Sql.text_eq (Sql.class_name r) cls) t))
  <-> Spec.semester_of_class cls t s.
Proof.
  rewrite in_map_iff. unfold Spec.semester_of_class. split.
  - intros [r [E H]]. apply filter_In in H. destruct H as [I T].
    apply text_eq_true in T. destruct T as [c [H1 H2]].
    exists r, c. auto.
  - intros [r [c [I [H1 [H2 E]]]]]. exists r. split; [exact E |].
    apply filter_In. split; [exact I |].
    apply text_eq_true. now exists c.
Qed.

Lemma empty_of_no_member {A : Type} (l : list A) :
  (forall x, ~ In x l) -> l = [].
Proof.
  destruct l as [| a t]; [reflexivity |].
  intros H. exfalso. apply (H a). now left.
Qed.

Lemma mysql_semesters (cls : option string) (st : Sql.state) :
  Spec.lists_semesters (MySQL.semesters cls st false) cls (Sql.table st).
Proof.
  exists (MySQL.select_semesters cls (Sql.table st)).
  unfold MySQL.select_semesters.
  assert (M : forall s,
    In s (Rel.distinct (Rel.eqb_option Z.eqb)
            (map Sql.semester
               (filter (fun r => Sql.text_eq (Sql.class_name r) cls)
                  (Sql.table st))))
    <-> Spec.semester_of_class cls (Sql.table st) s).
  { intros s.
    rewrite (RelFacts.In_distinct _ RelFacts.eqb_option_Z).
    apply In_semesters_of_class. }
  repeat split.
  - apply (RelFacts.NoDup_distinct _ RelFacts.eqb_option_Z).
  - apply M.
  - apply M.
  - intros H. apply empty_of_no_member. intros s I. apply (H s), M, I.
Qed.

Lemma postgres_semesters (cls : option string) (st : Sql.state) :
  Spec.lists_semesters_sorted (Postgres.semesters cls st false) cls
    (Sql.table st).
Proof.
  destruct (mysql_semesters cls st) as [l [E [N [M Z0]]]].
  injection E as E. apply (f_equal (map (fun i =>
    match i with Semester s => s | _ => None end))) in E.
  rewrite !map_map, !map_id in E. subst l.
  exists (Postgres.select_semesters cls (Sql.table st)).
  unfold Postgres.select_semesters.
  fold (MySQL.select_semesters cls (Sql.table st)).
  repeat split.
  - now apply RelFacts.NoDup_order_by.
  - rewrite RelFacts.In_order_by. apply M.
  - rewrite RelFacts.In_order_by. apply M.
  - intros H. rewrite (Z0 H). reflexivity.
  - apply RelFacts.order_by_ascending, RelFacts.le_nullable_total,
      RelFacts.Zleb_total.
Qed.

End LookupFacts.

(** On every table, both variants of the classes lookup answer with exactly
    the class names present in the store, each once; the PostgreSQL variant
    lists them in ascending order of the collation. *)
Theorem classes_lookup (collate : string -> string -> bool)
    (T : Spec.total collate) (st : Sql.state) :
  Spec.lists_names_sorted collate (Postgres.classes collate st false)
    (Sql.table st)
  /\ Spec.lists_names (MySQL.classes st false) (Sql.table st).
Proof.
  split.
  - exists (Postgres.select_classes collate (Sql.table st)).
    split; [reflexivity |]. split.
    + apply RelFacts.order_by_distinct_values,
        (RelFacts.distinct_spec _ RelFacts.eqb_option_string).
    + apply RelFacts.order_by_ascending, RelFacts.le_nullable_total, T.
  - exists (MySQL.select_classes (Sql.table st)).
    split; [reflexivity |].
    apply (RelFacts.distinct_spec _ RelFacts.eqb_option_string).
Qed.

Lemma classes_lookup_witness :
  Spec.total Sample.collate
  /\ Spec.lists_names_sorted Sample.collate
       (Postgres.classes Sample.collate
          (Sample.store [Sample.blank 1 "B" 1 None; Sample.blank 2 "A" 1 None;
                         Sample.blank 3 "B" 2 None]) false)
       [Sample.blank 1 "B" 1 None; Sample.blank 2 "A" 1 None;
        Sample.blank 3 "B" 2 None].
Proof.
  split.
  - exact String.leb_total.
  - exact (proj1 (classes_lookup Sample.collate String.leb_total
             (Sample.store [Sample.blank 1 "B" 1 None;
                            Sample.blank 2 "A" 1 None;
                            Sample.blank 3 "B" 2 None]))).
Defined.

(** C3 at its failing input.  The classes statement of the MySQL variant is
    that of the PostgreSQL variant without its [ORDER BY class_name]: the
    PostgreSQL answer is the MySQL answer put in order.  The MySQL answer
    holds the right names, each once, but nothing in the code orders it; on
    a table whose rows hold the classes "B", "A" in that order it is "B",
    "A" where the PostgreSQL variant answers "A", "B". *)
Theorem classes_mysql_not_sorted :
  (forall collate t,
     Postgres.select_classes collate t
     = Rel.order_by (Rel.le_nullable false collate) (MySQL.select_classes t))
  /\ (forall st, Spec.lists_names (MySQL.classes st false) (Sql.table st))
  /\ let t := [Sample.blank 1 "B" 1 None; Sample.blank 2 "A" 1 None] in
     MySQL.classes (Sample.store t) false
     = Http.Reply 200 (Http.JArray [Http.ClassName (Some "B");
                                    Http.ClassName (Some "A")])
     /\ Postgres.classes Sample.collate (Sample.store t) false
        = Http.Reply 200 (Http.JArray [Http.ClassName (Some "A");
                                       Http.ClassName (Some "B")])
     /\ ~ Spec.lists_names_sorted Sample.collate
            (MySQL.classes (Sample.store t) false) t.
Proof.
  split; [reflexivity |]. split.
  { intros st. exists (MySQL.select_classes (Sql.table st)).
    split; [reflexivity |].
    apply (RelFacts.distinct_spec _ RelFacts.eqb_option_string). }
  split; [reflexivity |]. split; [reflexivity |].
  intros [l [E [_ S]]]. vm_compute in E.
  destruct l as [| a [| b [| c l]]]; try discriminate.
  injection E as <- <-.
  inversion S as [| ? ? _ H]; subst.
  inversion H as [| ? ? C]; subst. vm_compute in C. discriminate.
Qed.

(** For every class name, both variants of the semesters lookup answer with
    the semester values of that class's records, without duplicates, and
    with the empty array (status 200) when no record is of that class; the
    PostgreSQL variant lists them in ascending order. *)
Theorem semesters_lookup (cls : option string) (st : Sql.state) :
  Spec.lists_semesters_sorted (Postgres.semesters cls st false) cls
    (Sql.table st)
  /\ Spec.lists_semesters (MySQL.semesters cls st false) cls (Sql.table st).
Proof.
  split.
  - apply LookupFacts.postgres_semesters.
  - apply LookupFacts.mysql_semesters.
Qed.

(** C4 at its failing input.  The semesters statement of the MySQL variant
    is that of the PostgreSQL variant without its [ORDER BY semester]: the
    PostgreSQL answer is the MySQL answer put in order.  The MySQL answer
    holds the semesters of the class, each once, and is empty (status 200)
    for a class without record, but nothing in the code orders it; for a
    class whose rows hold semester 2 before semester 1 it is 2, 1 where the
    PostgreSQL variant answers 1, 2. *)
Theorem semesters_mysql_not_sorted :
  (forall cls t,
     Postgres.select_semesters cls t
     = Rel.order_by (Rel.le_nullable false Z.leb)
         (MySQL.select_semesters cls t))
  /\ (forall cls st,
        Spec.lists_semesters (MySQL.semesters cls st false) cls
          (Sql.table st))
  /\ let t := [Sample.blank 1 "X" 2 None; Sample.blank 2 "X" 1 None] in
     MySQL.semesters (Some "X") (Sample.store t) false
     = Http.Reply 200 (Http.JArray [Http.Semester (Some 2);
                                    Http.Semester (Some 1)])
     /\ Postgres.semesters (Some "X") (Sample.store t) false
        = Http.Reply 200 (Http.JArray [Http.Semester (Some 1);
                                       Http.Semester (Some 2)])
     /\ ~ Spec.lists_semesters_sorted
            (MySQL.semesters (Some "X") (Sample.store t) false)
            (Some "X") t.
Proof.
  split; [reflexivity |].
  split; [exact LookupFacts.mysql_semesters |].
  split; [reflexivity |]. split; [reflexivity |].
  intros [l [E [_ [_ [_ S]]]]]. vm_compute in E.
  destruct l as [| a [| b [| c l]]]; try discriminate.
  injection E as <- <-.
  inversion S as [| ? ? _ H]; subst.
  inversion H as [| ? ? C]; subst. vm_compute in C. discriminate.
Qed.


(** ** Lookups: details *)

Module DetailsFacts.
Import Http.

Section Details.
Variable StringToNumber : string -> Js.number.
Variable text_to_int : string -> option Z.

Lemma same_details (q : details_query) (st : Sql.state) (fault : bool) :
  MySQL.details StringToNumber text_to_int q st fault
  = Postgres.details StringToNumber text_to_int q st fault.
Proof. reflexivity. Qed.

Lemma class_matches (r : Sql.row) (cls : option string) :
  Sql.text_eq (option_map Sql.TRIM (Sql.class_name r))
    (option_map Js.trim cls) = true
  <-> exists cn c, Sql.class_name r = Some cn /\ cls = Some c
                   /\ Sql.TRIM cn = Js.trim c.
Proof.
  rewrite LookupFacts.text_eq_true. split.
  - intros [x [H1 H2]].
    destruct (Sql.class_name r) as [cn |]; [| discriminate].
    destruct cls as [c |]; [| discriminate].
    exists cn, c. simpl in *. repeat split; congruence.
  - intros [cn [c [H1 [H2 H3]]]]. exists (Js.trim c).
    rewrite H1, H2. simpl. now rewrite H3.
Qed.

Lemma semester_matches (r : Sql.row) (n : Js.number) :
  Sql.int_eq (Sql.semester r) (Sql.int_param text_to_int (Js.Num n)) = true
  <-> exists z, n = Js.Int z /\ Sql.semester r = Some z.
Proof.
  rewrite LookupFacts.int_eq_true. split.
  - intros [z [H1 H2]]. destruct n; try discriminate.
    exists z. simpl in H2. split; congruence.
  - intros [z [-> H]]. now exists z.
Qed.

Lemma section_matches (r : Sql.row) (sec : string) :
  Sql.text_eq (option_map Sql.TRIM (Sql.section r)) (Some sec) = true
  <-> exists s, Sql.section r = Some s /\ Sql.TRIM s = sec.
Proof.
  rewrite LookupFacts.text_eq_true. split.
  - intros [x [H1 H2]].
    destruct (Sql.section r) as [s |]; [| discriminate].
    exists s. simpl in H1. split; congruence.
  - intros [s [H1 H2]]. exists sec. rewrite H1. simpl. now rewrite H2.
Qed.

Lemma no_section_matches (r : Sql.row) :
  Sql.is_null (Sql.section r) || Sql.trim_is_empty (Sql.section r) = true
  <-> Spec.has_no_section r.
Proof.
  unfold Spec.has_no_section, Sql.trim_is_empty.
  rewrite orb_true_iff, section_matches.
  destruct (Sql.section r); simpl; split; intros [H | H]; auto; discriminate.
Qed.

(** The section the handler compares with: the trimmed input, or the empty
    string when the parameter is absent. *)
Lemma section_parameter (sec : option string) :
  Js.trim (Js.or_empty sec)
  = match sec with
    | Some s => Js.trim s
    | None => ""
    end.
Proof.
  destruct sec as [s |]; [| reflexivity].
  unfold Js.or_empty, Js.truthy.
  destruct (s =? "")%string eqn:E; simpl; [| reflexivity].
  apply String.eqb_eq in E. now subst.
Qed.

Lemma details_rows_chosen (q : details_query) (t : list Sql.row) :
  Postgres.details_rows StringToNumber text_to_int q t
  = Rel.limit1 (filter (Spec.chosen_filter StringToNumber text_to_int q) t).
Proof.
  unfold Postgres.details_rows, Spec.chosen_filter.
  destruct (Js.truthy (Js.trim (Js.or_empty (q_section q))));
    reflexivity.
Qed.

Lemma chosen_filter_wanted (q : details_query) (r : Sql.row) :
  Spec.chosen_filter StringToNumber text_to_int q r = true
  <-> Spec.wanted StringToNumber q r.
Proof.
  unfold Spec.chosen_filter, Spec.wanted, Spec.of_class_and_semester.
  rewrite section_parameter. unfold Js.truthy.
  destruct (q_section q) as [s |].
  - destruct (Js.trim s =? "")%string eqn:E; simpl.
    + unfold Postgres.details_where_no_section.
      rewrite !andb_true_iff, class_matches, semester_matches,
        no_section_matches. tauto.
    + unfold Postgres.details_where_section, Spec.has_section.
      rewrite !andb_true_iff, class_matches, semester_matches,
        section_matches. tauto.
  - simpl. unfold Postgres.details_where_no_section.
    rewrite !andb_true_iff, class_matches, semester_matches,
      no_section_matches. tauto.
Qed.
End Details.

End DetailsFacts.

(** C1: in both variants and on every table, the details lookup, when the
    store executes its statement, answers either with one record of the
    table that is wanted by the request, or with null and then no record of
    the table is wanted.  A record is wanted when its trimmed class name is
    the trimmed input class, its semester is the numeric input, and its
    section matches: the trimmed stored section equals the trimmed input
    section when one is supplied and non-empty after trimming; the stored
    section is NULL or empty after trimming when the input section is
    omitted or empty after trimming. *)
Theorem details_lookup (StringToNumber : string -> Js.number)
    (text_to_int : string -> option Z) (collate : string -> string -> bool)
    (v : Portal.backend) (q : Http.details_query) (st : Sql.state) :
  let resp :=
    fst (Portal.handle StringToNumber text_to_int collate v
           (Portal.GetDetails q) st false) in
  (exists r, resp = Http.Reply 200 (Http.JRecord r)
             /\ In r (Sql.table st)
             /\ Spec.wanted StringToNumber q r)
  \/ (resp = Http.Reply 200 Http.JNull
      /\ forall r, In r (Sql.table st) -> ~ Spec.wanted StringToNumber q r).
Proof.
  assert (E : fst (Portal.handle StringToNumber text_to_int collate v
                     (Portal.GetDetails q) st false)
              = Postgres.details StringToNumber text_to_int q st false)
    by (destruct v; reflexivity).
  cbv zeta. rewrite E. unfold Postgres.details.
  rewrite DetailsFacts.details_rows_chosen.
  destruct (RelFacts.limit1_filter
              (Spec.chosen_filter StringToNumber text_to_int q)
              (Sql.table st)) as [[H N] | [r [H [I P]]]]; rewrite H.
  - right. split; [reflexivity |]. intros r I W.
    apply (proj2 (DetailsFacts.chosen_filter_wanted
                    StringToNumber text_to_int q r)) in W.
    rewrite (N r I) in W. discriminate.
  - left. exists r. split; [reflexivity |]. split; [exact I |].
    exact (proj1 (DetailsFacts.chosen_filter_wanted
                    StringToNumber text_to_int q r) P).
Qed.

(** C5 at its failing inputs.  In both variants, a details request whose
    semester parameter is not numeric has [Number] give NaN, and the handler
    binds NaN to the semester of its statement.  Neither store reads NaN as
    an integer, so the statement raises, and the handler answers from its
    [catch] (or [err]) branch: status 500 with the body null, whatever the
    table holds, where the claim promises null without an error status. *)
Theorem details_not_numeric_raises (StringToNumber : string -> Js.number)
    (text_to_int : string -> option Z) (collate : string -> string -> bool)
    (v : Portal.backend) (q : Http.details_query) (st : Sql.state)
    (down : bool) :
  Js.Number StringToNumber (Http.q_semester q) = Js.NaN ->
  Store.details_served StringToNumber text_to_int collate v q st down
  = Http.Reply 500 Http.JNull.
Proof.
  intros H. unfold Store.details_served. rewrite H.
  cbn [Store.raises_on]. rewrite orb_true_r.
  destruct v; reflexivity.
Qed.

Lemma details_not_numeric_raises_witness :
  Js.Number Sample.StringToNumber (Some "xyz") = Js.NaN
  /\ Store.details_served Sample.StringToNumber Sample.text_to_int
       Sample.collate Portal.PostgreSQL
       {| Http.q_class := Some "CS101";
          Http.q_semester := Some "xyz";
          Http.q_section := None |}
       (Sample.store [Sample.blank 1 "CS101" 3 None]) false
     = Http.Reply 500 Http.JNull.
Proof.
  split.
  - reflexivity.
  - apply (details_not_numeric_raises Sample.StringToNumber
             Sample.text_to_int Sample.collate Portal.PostgreSQL
             {| Http.q_class := Some "CS101";
                Http.q_semester := Some "xyz";
                Http.q_section := None |}
             (Sample.store [Sample.blank 1 "CS101" 3 None]) false).
    reflexivity.
Defined.


(** ** Lookups: sections *)

Module SectionsFacts.
Import Http.

Section Sections.
Variable text_to_int : string -> option Z.

Lemma postgres_where (cls sem : option string) (r : Sql.row) :
  Postgres.sections_where text_to_int cls sem r = true
  <-> exists c z s,
        cls = Some c /\ Sql.class_name r = Some c
        /\ Sql.int_of_text text_to_int sem = Some z /\ Sql.semester r = Some z
        /\ Sql.section r = Some s /\ Sql.TRIM s <> "".
Proof.
  unfold Postgres.sections_where.
  rewrite !andb_true_iff, LookupFacts.text_eq_true, LookupFacts.int_eq_true.
  split.
  - intros [[[[c [C1 C2]] [z [Z1 Z2]]] _] T].
    destruct (Sql.section r) as [s |]; [| discriminate].
    exists c, z, s. simpl in T.
    apply negb_true_iff, String.eqb_neq in T. auto 8.
  - intros [c [z [s [C1 [C2 [Z1 [Z2 [S T]]]]]]]]. rewrite S. simpl.
    repeat split; eauto.
    apply negb_true_iff, String.eqb_neq, T.
Qed.

(** On the PostgreSQL variant the sections lookup answers with the distinct
    sections of the records of the class and semester, leaving out every
    record whose section is NULL or empty after trimming. *)
Lemma postgres_sections (cls sem : option string) (st : Sql.state) :
  exists l,
    Postgres.sections text_to_int cls sem st false
    = Reply 200 (JArray (map Section_ l))
    /\ NoDup l
    /\ forall o, In o l <-> Spec.carries text_to_int cls sem (Sql.table st) o.
Proof.
  exists (Postgres.select_sections text_to_int cls sem (Sql.table st)).
  split; [reflexivity |]. unfold Postgres.select_sections. split.
  - apply (RelFacts.NoDup_distinct _ RelFacts.eqb_option_string).
  - intros o. rewrite (RelFacts.In_distinct _ RelFacts.eqb_option_string).
    rewrite in_map_iff. unfold Spec.carries. split.
    + intros [r [E I]]. apply filter_In in I. destruct I as [I W].
      apply postgres_where in W.
      destruct W as [c [z [s [C1 [C2 [Z1 [Z2 [S T]]]]]]]].
      exists r, c, z, s. repeat split; auto. congruence.
    + intros [r [c [z [s [I [C1 [C2 [Z1 [Z2 [E [S T]]]]]]]]]]].
      exists r. split; [congruence |]. apply filter_In. split; [exact I |].
      apply postgres_where. exists c, z, s. auto 8.
Qed.
End Sections.

End SectionsFacts.

(** C2 at its failing input.  A record whose section is one space is a
    record without section: the details lookup of both variants serves it
    when no section is asked for, and the sections lookup of the PostgreSQL
    variant leaves it out.  The sections lookup of the MySQL variant compares
    the untrimmed column with the empty string and lists the space as a
    section. *)
Theorem sections_mysql_lists_blank_section :
  let t := [Sample.blank 1 "Math" 1 (Some " ")] in
  let q := {| Http.q_class := Some "Math"; Http.q_semester := Some "1";
              Http.q_section := None |} in
  MySQL.sections Sample.text_to_int (Some "Math") (Some "1")
    (Sample.store t) false
  = Http.Reply 200 (Http.JArray [Http.Section_ (Some " ")])
  /\ Postgres.sections Sample.text_to_int (Some "Math") (Some "1")
       (Sample.store t) false
     = Http.Reply 200 (Http.JArray [])
  /\ MySQL.details Sample.StringToNumber Sample.text_to_int q
       (Sample.store t) false
     = Http.Reply 200 (Http.JRecord (Sample.blank 1 "Math" 1 (Some " "))).
Proof. repeat split. Qed.


(** ** The write paths: add, update, delete *)

Module WriteFacts.
Import Http.

Lemma opt_trim_ok (v : Js.value) :
  Spec.trimmable v = true -> Js.opt_trim v = Js.Ok (Spec.trimmed v).
Proof. destruct v; simpl; intros H; try discriminate; reflexivity. Qed.

Lemma opt_trim_throws (v : Js.value) :
  Spec.trimmable v = false -> Js.opt_trim v = Js.TypeError.
Proof. destruct v; simpl; intros H; try discriminate; reflexivity. Qed.

(** [section?.trim() || ""] *)
Lemma or_empty_trimmed (v : Js.value) :
  Some (Js.or_empty (Spec.trimmed v)) = Spec.section_written v.
Proof.
  destruct v; simpl; try reflexivity.
  unfold Js.truthy. destruct (Js.trim s =? "")%string eqn:E; simpl.
  - apply String.eqb_eq in E. now rewrite E.
  - reflexivity.
Qed.

(** [String(section || "").trim()] *)
Lemma trim_or_empty (x : option string) :
  Some (Js.trim (Js.or_empty x)) = Spec.section_written (Spec.of_field x).
Proof.
  destruct x as [s |]; simpl; [| reflexivity].
  unfold Js.truthy. destruct (s =? "")%string eqn:E; simpl; [| reflexivity].
  apply String.eqb_eq in E. now subst.
Qed.

Section Updates.
Variable text_to_int : string -> option Z.

Lemma same_update_fields (b : update_body) :
  MySQL.update_fields text_to_int b = Postgres.update_fields text_to_int b.
Proof. reflexivity. Qed.

Lemma update_fields_ok (b : update_body) :
  Spec.text_fields b = true ->
  Postgres.update_fields text_to_int b
  = Js.Ok (Spec.written_fields text_to_int b).
Proof.
  unfold Spec.text_fields. rewrite !andb_true_iff.
  intros [[[[[[H1 H2] H3] H4] H5] H6] H7].
  unfold Postgres.update_fields.
  rewrite (opt_trim_ok _ H1), (opt_trim_ok _ H2), (opt_trim_ok _ H3),
    (opt_trim_ok _ H4), (opt_trim_ok _ H5), (opt_trim_ok _ H6),
    (opt_trim_ok _ H7).
  simpl. unfold Spec.written_fields. now rewrite or_empty_trimmed.
Qed.

Lemma update_fields_throws (b : update_body) :
  Spec.text_fields b = false ->
  Postgres.update_fields text_to_int b = Js.TypeError.
Proof.
  unfold Spec.text_fields, Postgres.update_fields. intros H.
  destruct (Spec.trimmable (u_class_name b)) eqn:E1;
    [rewrite (opt_trim_ok _ E1) | now rewrite (opt_trim_throws _ E1)].
  destruct (Spec.trimmable (u_section b)) eqn:E2;
    [rewrite (opt_trim_ok _ E2) | now rewrite (opt_trim_throws _ E2)].
  destruct (Spec.trimmable (u_academic_year b)) eqn:E3;
    [rewrite (opt_trim_ok _ E3) | now rewrite (opt_trim_throws _ E3)].
  destruct (Spec.trimmable (u_mentor_name b)) eqn:E4;
    [rewrite (opt_trim_ok _ E4) | now rewrite (opt_trim_throws _ E4)].
  destruct (Spec.trimmable (u_designation b)) eqn:E5;
    [rewrite (opt_trim_ok _ E5) | now rewrite (opt_trim_throws _ E5)].
  destruct (Spec.trimmable (u_contact b)) eqn:E6;
    [rewrite (opt_trim_ok _ E6) | now rewrite (opt_trim_throws _ E6)].
  destruct (Spec.trimmable (u_timetable_link b)) eqn:E7;
    [discriminate | now rewrite (opt_trim_throws _ E7)].
Qed.

Lemma update_fields_cases (b : update_body) :
  (Spec.text_fields b = true
   /\ Postgres.update_fields text_to_int b
      = Js.Ok (Spec.written_fields text_to_int b))
  \/ (Spec.text_fields b = false
      /\ Postgres.update_fields text_to_int b = Js.TypeError).
Proof.
  destruct (Spec.text_fields b) eqn:E.
  - left. split; [reflexivity | now apply update_fields_ok].
  - right. split; [reflexivity | now apply update_fields_throws].
Qed.



Lemma update_where_id_none (target : option Z) (f : Sql.row -> Sql.row)
    (t : list Sql.row) :
  filter (fun r => Sql.int_eq (Some (Sql.id r)) target) t = [] ->
  Sql.update_where_id target f t = t.
Proof.
  unfold Sql.update_where_id.
  induction t as [| r t IH]; cbn [map filter]; [reflexivity |].
  destruct (Sql.int_eq (Some (Sql.id r)) target); [discriminate |].
  intros H. now rewrite IH.
Qed.

Lemma delete_where_id_none (target : option Z) (t : list Sql.row) :
  filter (fun r => Sql.int_eq (Some (Sql.id r)) target) t = [] ->
  Sql.delete_where_id target t = t.
Proof.
  unfold Sql.delete_where_id.
  induction t as [| r t IH]; cbn [filter]; [reflexivity |].
  destruct (Sql.int_eq (Some (Sql.id r)) target); [discriminate |].
  intros H. cbn [negb]. now rewrite IH.
Qed.

Lemma delete_where_id_twice (target : option Z) (t : list Sql.row) :
  Sql.delete_where_id target (Sql.delete_where_id target t)
  = Sql.delete_where_id target t.
Proof.
  unfold Sql.delete_where_id.
  induction t as [| r t IH]; cbn [filter]; [reflexivity |].
  destruct (Sql.int_eq (Some (Sql.id r)) target) eqn:E; cbn [negb filter].
  - exact IH.
  - rewrite E. cbn [negb]. now rewrite IH.
Qed.

Lemma delete_where_id_selects_none (target : option Z) (t : list Sql.row) :
  filter (fun r => Sql.int_eq (Some (Sql.id r)) target)
    (Sql.delete_where_id target t) = [].
Proof.
  unfold Sql.delete_where_id.
  induction t as [| r t IH]; cbn [filter]; [reflexivity |].
  destruct (Sql.int_eq (Some (Sql.id r)) target) eqn:E; cbn [negb filter].
  - exact IH.
  - now rewrite E.
Qed.
End Updates.

Lemma with_table_same (st : Sql.state) :
  Sql.with_table (Sql.table st) st = st.
Proof. now destruct st. Qed.

End WriteFacts.


(** ** Upload storage *)

Module UploadFacts.

Lemma replace_runs_no_space (i : bool) (s : string) :
  Spec.no_space (Js.replace_runs i s).
Proof.
  unfold Spec.no_space. revert i.
  induction s as [| c r IH]; intros i; simpl; [constructor |].
  destruct (Js.is_space c) eqn:E.
  - destruct i; [apply IH |]. simpl. constructor; [reflexivity | apply IH].
  - simpl. constructor; [exact E | apply IH].
Qed.

(** A name without white space is kept as it is. *)
Lemma replace_runs_id (s : string) :
  Spec.no_space s -> Js.replace_runs false s = s.
Proof.
  unfold Spec.no_space.
  induction s as [| c r IH]; simpl; intros H; [reflexivity |].
  inversion H as [| ? ? Hc Hr]; subst. rewrite Hc. now rewrite IH.
Qed.

(** Single white-space characters become underscores, one for one. *)
Lemma replace_runs_single (s : string) :
  Spec.single_spaced s = true ->
  forall i, (i = true -> match s with
                         | String c _ => Js.is_space c = false
                         | EmptyString => True
                         end) ->
  Js.replace_runs i s = Spec.underscored s.
Proof.
  induction s as [| c r IH]; intros S i Hi; [reflexivity |].
  cbn [Js.replace_runs Spec.underscored].
  destruct (Js.is_space c) eqn:E.
  - destruct i; [specialize (Hi eq_refl); simpl in Hi; congruence |].
    f_equal. destruct r as [| d r']; [reflexivity |].
    cbn [Spec.single_spaced] in S. rewrite E in S.
    apply andb_true_iff in S. destruct S as [S1 S2].
    apply IH; [exact S2 |]. intros _.
    destruct (Js.is_space d); [discriminate | reflexivity].
  - f_equal. destruct r as [| d r']; [reflexivity |].
    cbn [Spec.single_spaced] in S.
    apply andb_true_iff in S. destruct S as [_ S2].
    apply IH; [exact S2 | discriminate].
Qed.

(** Of two adjacent white-space characters one can be dropped: a run of
    white space gives a single underscore. *)
Lemma replace_runs_run (a : string) (w1 w2 : ascii) (b : string) (i : bool) :
  Js.is_space w1 = true -> Js.is_space w2 = true ->
  Js.replace_runs i (a ++ String w1 (String w2 b))
  = Js.replace_runs i (a ++ String w2 b).
Proof.
  intros H1 H2. revert i.
  induction a as [| c r IH]; intros i; simpl.
  - rewrite H1, H2. destruct i; reflexivity.
  - destruct (Js.is_space c); [destruct i |]; now rewrite IH.
Qed.

End UploadFacts.

(** C7: in both variants, adding a record with a syllabus file and no mentor
    photo, when the store executes the INSERT, answers with the success
    message and appends one record whose syllabus link is the non-null path
    "/uploads/syllabus/" followed by the stored file name and whose mentor
    photo is NULL; the file is written below the syllabus directory.  The
    stored file name is the time stamp, an underscore, and the original name
    with its white space replaced by underscores (no white space is left,
    a name without white space is kept, and where no two white-space
    characters are adjacent each is replaced one for one; a longer run gives
    one underscore); the directory is chosen by the
    field name: the syllabus directory for "syllabus", the mentor directory
    for "mentor_photo". *)
Theorem add_with_syllabus_only (StringToNumber : string -> Js.number)
    (text_to_int : string -> option Z) (collate : string -> string -> bool)
    (v : Portal.backend) (f : Http.add_form) (u : Http.upload)
    (st : Sql.state) :
  Http.a_syllabus f = Some u ->
  Http.a_mentor_photo f = None ->
  let out := Portal.handle StringToNumber text_to_int collate v
               (Portal.PostAdd f) st false in
  fst out = Http.Reply 200 (Http.JMessage "Record added successfully")
  /\ (exists r,
        Sql.table (snd out) = (Sql.table st ++ [r])%list
        /\ Sql.syllabus_link r
           = Some ("/uploads/syllabus/" ++ Upload.filename u)%string
        /\ Sql.mentor_photo r = None)
  /\ Sql.disk (snd out)
     = (Sql.disk st ++ ["uploads/syllabus/" ++ Upload.filename u]%string)%list
  /\ Upload.filename u
     = (Js.string_of_N (Http.received u) ++ "_"
        ++ Js.replace_spaces (Http.originalname u))%string
  /\ Spec.no_space (Js.replace_spaces (Http.originalname u))
  /\ (Spec.no_space (Http.originalname u) ->
      Js.replace_spaces (Http.originalname u) = Http.originalname u)
  /\ (Spec.single_spaced (Http.originalname u) = true ->
      Js.replace_spaces (Http.originalname u)
      = Spec.underscored (Http.originalname u))
  /\ (forall a w1 w2 b,
        Js.is_space w1 = true -> Js.is_space w2 = true ->
        Js.replace_spaces (a ++ String w1 (String w2 b))
        = Js.replace_spaces (a ++ String w2 b))
  /\ Upload.destination "syllabus" = Some "uploads/syllabus"
  /\ Upload.destination "mentor_photo" = Some "uploads/mentors".
Proof.
  intros Hs Hp out.
  assert (D : Sql.disk (Upload.store_files f st)
              = (Sql.disk st
                 ++ ["uploads/syllabus/" ++ Upload.filename u]%string)%list).
  { unfold Upload.store_files. cbn [Sql.disk]. rewrite Hs, Hp.
    cbn [Upload.written]. unfold Upload.stored_path.
    cbn [Upload.destination String.eqb Ascii.eqb Bool.eqb].
    now rewrite app_nil_r. }
  assert (P : Upload.syllabusPath f
              = Some ("/uploads/syllabus/" ++ Upload.filename u)%string)
    by (unfold Upload.syllabusPath; now rewrite Hs).
  assert (Q : Upload.photoPath f = None)
    by (unfold Upload.photoPath; now rewrite Hp).
  split; [destruct v; reflexivity |].
  split.
  { destruct v; subst out; cbn [Portal.handle];
      unfold Postgres.add, MySQL.add; cbn [snd];
      unfold Sql.insert_row; cbn [Sql.table];
      (eexists; split; [reflexivity |]);
      cbn [Sql.new_row Sql.syllabus_link Sql.mentor_photo]; auto. }
  split.
  { destruct v; subst out; cbn [Portal.handle];
      unfold Postgres.add, MySQL.add; cbn [snd];
      unfold Sql.insert_row; cbn [Sql.disk]; exact D. }
  split; [reflexivity |].
  split; [apply UploadFacts.replace_runs_no_space |].
  split; [apply UploadFacts.replace_runs_id |].
  split.
  { intros S. apply UploadFacts.replace_runs_single; [exact S |].
    discriminate. }
  split.
  { intros a w1 w2 b. apply UploadFacts.replace_runs_run. }
  split; reflexivity.
Qed.

Lemma add_with_syllabus_only_witness :
  let out := Portal.handle Sample.StringToNumber Sample.text_to_int
               Sample.collate Portal.PostgreSQL
               (Portal.PostAdd Sample.math_form) (Sample.store []) false in
  exists r,
    Sql.table (snd out) = [r]
    /\ Sql.syllabus_link r
       = Some "/uploads/syllabus/1700000000000_my_syllabus_2024.pdf"
    /\ Sql.mentor_photo r = None.
Proof.
  exact (proj1 (proj2
    (add_with_syllabus_only Sample.StringToNumber Sample.text_to_int
       Sample.collate Portal.PostgreSQL Sample.math_form
       {| Http.originalname := "my  syllabus 2024.pdf";
          Http.received := 1700000000000 |}
       (Sample.store []) eq_refl eq_refl))).
Defined.


(** ** Update *)

Module UpdateFacts.
Import Http.

Section Rules.
Variable StringToNumber : string -> Js.number.
Variable text_to_int : string -> option Z.
Variable collate : string -> string -> bool.


(** On the fields of a form, an update writes what the add of the MySQL
    variant writes. *)
Lemma written_fields_of_form (f : add_form) :
  Spec.written_fields text_to_int (Spec.body_of_form f)
  = MySQL.add_fields text_to_int f.
Proof.
  destruct f as [cn sm sc ay mn dg ct tl sy ph].
  unfold Spec.written_fields, MySQL.add_fields, Spec.body_of_form. cbn.
  f_equal;
    try match goal with
        | |- Spec.trimmed (Spec.of_field ?x) = _ => destruct x; reflexivity
        end.
  - destruct sm; reflexivity.
  - rewrite <- WriteFacts.or_empty_trimmed. destruct sc; reflexivity.
Qed.

Lemma update_response (v : Portal.backend) (id : string) (b : update_body)
    (st : Sql.state) :
  Spec.text_fields b = true ->
  Portal.handle StringToNumber text_to_int collate v
    (Portal.PutUpdate id b) st false
  = (Reply 200 (JMessage "Record updated successfully"),
     Sql.with_table
       (Sql.update_where_id (text_to_int id)
          (Sql.set_fields (Spec.written_fields text_to_int b))
          (Sql.table st)) st).
Proof.
  intros H. destruct v; cbn [Portal.handle];
    unfold Postgres.update, MySQL.update;
    rewrite ?WriteFacts.same_update_fields;
    now rewrite (WriteFacts.update_fields_ok text_to_int b H).
Qed.

Lemma update_table (v : Portal.backend) (id : string) (b : update_body)
    (st : Sql.state) (fault : bool) :
  let t' := Sql.table (snd (Portal.handle StringToNumber text_to_int collate v
                              (Portal.PutUpdate id b) st fault)) in
  t' = Sql.table st
  \/ (Spec.text_fields b = true /\ fault = false
      /\ t' = Sql.update_where_id (text_to_int id)
                (Sql.set_fields (Spec.written_fields text_to_int b))
                (Sql.table st)).
Proof.
  destruct (WriteFacts.update_fields_cases text_to_int b) as [[T E] | [T E]];
    destruct v, fault; cbn [Portal.handle];
    unfold Postgres.update, MySQL.update;
    rewrite ?WriteFacts.same_update_fields, E; cbn; auto.
Qed.
End Rules.

End UpdateFacts.

Module UpdateSetFacts.

Section Members.
Variable text_to_int : string -> option Z.


End Members.

End UpdateSetFacts.





(** ** Requests that find nothing, and store faults *)

(** C8: in both variants, when the store executes the statements, an update
    (with text fields that are strings, null or absent) on an id that no
    record has answers with its success message and changes nothing, and so
    does a delete on such an id; deleting any id twice answers with the
    success message both times, and the second call removes no row. *)
Theorem missing_id_succeeds (StringToNumber : string -> Js.number)
    (text_to_int : string -> option Z) (collate : string -> string -> bool)
    (v : Portal.backend) (id : string) (b : Http.update_body)
    (st : Sql.state) :
  Spec.text_fields b = true ->
  filter (Spec.id_is text_to_int id) (Sql.table st) = [] ->
  Portal.handle StringToNumber text_to_int collate v
    (Portal.PutUpdate id b) st false
  = (Http.Reply 200 (Http.JMessage "Record updated successfully"), st)
  /\ Portal.handle StringToNumber text_to_int collate v
       (Portal.DeleteRecord id) st false
     = (Http.Reply 200 (Http.JMessage "Record deleted successfully"), st)
  /\ forall st0,
       let first := Portal.handle StringToNumber text_to_int collate v
                      (Portal.DeleteRecord id) st0 false in
       let second := Portal.handle StringToNumber text_to_int collate v
                       (Portal.DeleteRecord id) (snd first) false in
       fst first
       = Http.Reply 200 (Http.JMessage "Record deleted successfully")
       /\ fst second
          = Http.Reply 200 (Http.JMessage "Record deleted successfully")
       /\ filter (Spec.id_is text_to_int id) (Sql.table (snd first)) = []
       /\ snd second = snd first.
Proof.
  intros T N. split; [| split].
  - rewrite (UpdateFacts.update_response StringToNumber text_to_int collate
               v id b st T).
    rewrite (WriteFacts.update_where_id_none _ _ _ N).
    now rewrite WriteFacts.with_table_same.
  - destruct v; cbn [Portal.handle]; unfold Postgres.delete, MySQL.delete;
      rewrite (WriteFacts.delete_where_id_none _ _ N);
      now rewrite WriteFacts.with_table_same.
  - intros st0. destruct v; cbn [Portal.handle];
      unfold Postgres.delete, MySQL.delete; cbn [fst snd];
      (split; [reflexivity |]); (split; [reflexivity |]);
      (split; [apply WriteFacts.delete_where_id_selects_none |]);
      destruct st0; unfold Sql.with_table; cbn [Sql.table Sql.serial Sql.disk];
      now rewrite WriteFacts.delete_where_id_twice.
Qed.

Lemma missing_id_succeeds_witness :
  let st := Sample.store [Sample.blank 1 "Math" 1 (Some "A")] in
  Portal.handle Sample.StringToNumber Sample.text_to_int Sample.collate
    Portal.MySQL_ (Portal.PutUpdate "42" Sample.math_body) st false
  = (Http.Reply 200 (Http.JMessage "Record updated successfully"), st)
  /\ Portal.handle Sample.StringToNumber Sample.text_to_int Sample.collate
       Portal.MySQL_ (Portal.DeleteRecord "42") st false
     = (Http.Reply 200 (Http.JMessage "Record deleted successfully"), st).
Proof.
  intros st.
  destruct (missing_id_succeeds Sample.StringToNumber Sample.text_to_int
              Sample.collate Portal.MySQL_ "42" Sample.math_body st
              eq_refl eq_refl) as [U [D _]].
  exact (conj U D).
Defined.

Module FaultFacts.
Import Http.

Section NotFound.
Variable StringToNumber : string -> Js.number.
Variable text_to_int : string -> option Z.
Variable collate : string -> string -> bool.

Lemma fault_reply (v : Portal.backend) (rq : Portal.request)
    (st : Sql.state) :
  Spec.sends_statement rq = true ->
  fst (Portal.handle StringToNumber text_to_int collate v rq st true)
  = Reply 500 (Spec.fault_body rq).
Proof.
  intros H. destruct rq; destruct v; try reflexivity;
    cbn [Portal.handle]; unfold Postgres.update, MySQL.update;
    rewrite ?WriteFacts.same_update_fields;
    now rewrite (WriteFacts.update_fields_ok text_to_int b H).
Qed.

Lemma not_found_reply (v : Portal.backend) (rq : Portal.request)
    (st : Sql.state) :
  Spec.sends_statement rq = true ->
  Spec.selected StringToNumber text_to_int v rq (Sql.table st) = Some [] ->
  fst (Portal.handle StringToNumber text_to_int collate v rq st false)
  = Reply 200 (Spec.not_found_body rq).
Proof.
  intros H S. destruct rq; cbn [Spec.selected] in S.
  - injection S as S. destruct v; cbn [Portal.handle fst];
      unfold Postgres.classes, MySQL.classes,
        Postgres.select_classes, MySQL.select_classes;
      now rewrite S.
  - injection S as S. destruct v; cbn [Portal.handle fst];
      unfold Postgres.semesters, MySQL.semesters,
        Postgres.select_semesters, MySQL.select_semesters;
      now rewrite S.
  - destruct v; injection S as S; cbn [Portal.handle fst];
      unfold Postgres.sections, MySQL.sections,
        Postgres.select_sections, MySQL.select_sections;
      now rewrite S.
  - destruct v; injection S as S; cbn [Portal.handle fst];
      unfold Postgres.details, MySQL.details; now rewrite S.
  - discriminate.
  - injection S as S. destruct v; cbn [Portal.handle fst];
      unfold Postgres.records, MySQL.records,
        Postgres.select_records, MySQL.select_records;
      now rewrite S.
  - now rewrite (UpdateFacts.update_response StringToNumber text_to_int
                   collate v id b st H).
  - destruct v; reflexivity.
Qed.
End NotFound.

End FaultFacts.

(** C9: in both variants and for every route whose request gets as far as
    the store, a store fault is answered with status 500 and the body of the
    route (the empty array for the four listing routes, null for details, a
    generic error object for add, update and delete); and when the statement
    is executed and selects no row, the answer has status 200 and carries the
    empty array (listing routes), null (details) or the success message
    (update, delete). *)
Theorem faults_and_not_found (StringToNumber : string -> Js.number)
    (text_to_int : string -> option Z) (collate : string -> string -> bool)
    (v : Portal.backend) (rq : Portal.request) (st : Sql.state) :
  Spec.sends_statement rq = true ->
  fst (Portal.handle StringToNumber text_to_int collate v rq st true)
  = Http.Reply 500 (Spec.fault_body rq)
  /\ (Spec.selected StringToNumber text_to_int v rq (Sql.table st) = Some [] ->
      fst (Portal.handle StringToNumber text_to_int collate v rq st false)
      = Http.Reply 200 (Spec.not_found_body rq)).
Proof.
  intros H. split.
  - now apply FaultFacts.fault_reply.
  - now apply FaultFacts.not_found_reply.
Qed.

Lemma faults_and_not_found_witness :
  let st := Sample.store [Sample.blank 1 "Math" 1 (Some "A")] in
  let rq := Portal.GetDetails {| Http.q_class := Some "CS101";
                                 Http.q_semester := Some "3";
                                 Http.q_section := Some "A" |} in
  fst (Portal.handle Sample.StringToNumber Sample.text_to_int Sample.collate
         Portal.PostgreSQL rq st true)
  = Http.Reply 500 Http.JNull
  /\ fst (Portal.handle Sample.StringToNumber Sample.text_to_int
            Sample.collate Portal.PostgreSQL rq st false)
     = Http.Reply 200 Http.JNull.
Proof.
  intros st rq.
  destruct (faults_and_not_found Sample.StringToNumber Sample.text_to_int
              Sample.collate Portal.PostgreSQL rq st eq_refl) as [F N].
  exact (conj F (N eq_refl)).
Defined.


(** ** The section column is never written as NULL *)

Module SectionFacts.
Import Http.


Section Invariant.
Variable StringToNumber : string -> Js.number.
Variable text_to_int : string -> option Z.
Variable collate : string -> string -> bool.

Lemma add_fields_section (v : Portal.backend) (f : add_form) :
  Sql.v_section (Spec.add_rules StringToNumber text_to_int v f)
  = Spec.section_written (Spec.of_field (a_section f)).
Proof.
  destruct v; cbn [Spec.add_rules].
  - cbn [Postgres.add_fields Sql.v_section]. apply WriteFacts.trim_or_empty.
  - cbn [MySQL.add_fields Sql.v_section].
    rewrite <- WriteFacts.or_empty_trimmed.
    destruct (a_section f); reflexivity.
Qed.

Lemma add_table (v : Portal.backend) (f : add_form) (st : Sql.state)
    (fault : bool) :
  Sql.table (snd (Portal.handle StringToNumber text_to_int collate v
                    (Portal.PostAdd f) st fault))
  = if fault then Sql.table st
    else (Sql.table st
          ++ [Sql.new_row (Sql.serial st)
                (Spec.add_rules StringToNumber text_to_int v f)
                (Upload.syllabusPath f) (Upload.photoPath f)])%list.
Proof. destruct v, fault; reflexivity. Qed.




End Invariant.

End SectionFacts.




(** ** The scenarios of the specification, run on the model *)

Module Scenarios.
Import Http.

Example details_with_section :
  Postgres.details Sample.StringToNumber Sample.text_to_int
    {| q_class := Some "CS101 "; q_semester := Some "3";
       q_section := Some " A" |}
    (Sample.store Sample.cs101) false
  = Reply 200 (JRecord (Sample.blank 1 " CS101" 3 (Some "A "))).
Proof. reflexivity. Qed.

Example details_without_section :
  MySQL.details Sample.StringToNumber Sample.text_to_int
    {| q_class := Some "CS101"; q_semester := Some "3";
       q_section := Some "  " |}
    (Sample.store Sample.cs101) false
  = Reply 200 (JRecord (Sample.blank 3 "CS101" 3 None)).
Proof. reflexivity. Qed.

Example details_absent :
  Postgres.details Sample.StringToNumber Sample.text_to_int
    {| q_class := Some "CS101"; q_semester := Some "5";
       q_section := Some "A" |}
    (Sample.store Sample.cs101) false
  = Reply 200 JNull.
Proof. reflexivity. Qed.

Example semesters_without_duplicates :
  Postgres.semesters (Some "X")
    (Sample.store [ Sample.blank 1 "X" 2 None; Sample.blank 2 "X" 3 None;
                    Sample.blank 3 "X" 1 None; Sample.blank 4 "X" 2 None ])
    false
  = Reply 200 (JArray [Semester (Some 1); Semester (Some 2);
                       Semester (Some 3)]).
Proof. reflexivity. Qed.

(** add(class="Math", semester=1, section="", mentor="A"), then the sections
    lookup gives the empty array and the details lookup without section
    gives the record. *)
Example add_then_lookup :
  let st := snd (Postgres.add Sample.StringToNumber Sample.text_to_int
                   {| a_class_name := Some "Math"; a_semester := Some "1";
                      a_section := Some ""; a_academic_year := None;
                      a_mentor_name := Some "A"; a_designation := None;
                      a_contact := None; a_timetable_link := None;
                      a_syllabus := None; a_mentor_photo := None |}
                   (Sample.store []) false) in
  Postgres.sections Sample.text_to_int (Some "Math") (Some "1") st false
  = Reply 200 (JArray [])
  /\ Postgres.details Sample.StringToNumber Sample.text_to_int
       {| q_class := Some "Math"; q_semester := Some "1";
          q_section := None |} st false
     = Reply 200
         (JRecord
            {| Sql.id := 100; Sql.class_name := Some "Math";
               Sql.semester := Some 1; Sql.section := Some "";
               Sql.academic_year := Some ""; Sql.mentor_name := Some "A";
               Sql.designation := Some ""; Sql.contact := Some "";
               Sql.timetable_link := None; Sql.syllabus_link := None;
               Sql.mentor_photo := None |}).
Proof. split; reflexivity. Qed.

Example stored_name :
  Upload.filename {| originalname := "my  syllabus 2024.pdf";
                     received := 1700000000000 |}
  = "1700000000000_my_syllabus_2024.pdf".
Proof. reflexivity. Qed.

End Scenarios.


(* ================================================================== *)
(** * Further properties of the routes *)
(* ================================================================== *)

(** ** Trimming *)

Module TrimFacts.

Section Strip.
Variable p : ascii -> bool.

Lemma strip_start_head (s : string) : Flow.head_ok p (Js.strip_start p s).
Proof.
  induction s as [| c r IH]; simpl; [exact I |].
  destruct (p c) eqn:E; [exact IH | exact E].
Qed.

Lemma strip_end_head (s : string) :
  Flow.head_ok p s -> Flow.head_ok p (Js.strip_end p s).
Proof.
  destruct s as [| c r]; simpl; [auto |]. intros H.
  destruct (Js.strip_end p r); [rewrite H |]; exact H.
Qed.

Lemma strip_end_fixed (s : string) :
  Js.strip_end p (Js.strip_end p s) = Js.strip_end p s.
Proof.
  induction s as [| c r IH]; [reflexivity |].
  cbn [Js.strip_end]. destruct (Js.strip_end p r) as [| d r'] eqn:E.
  - destruct (p c) eqn:Ec; [reflexivity |].
    cbn [Js.strip_end]. now rewrite Ec.
  - cbn [Js.strip_end]. cbn [Js.strip_end] in IH.
    destruct (Js.strip_end p r') as [| e r''].
    + destruct (p d); [discriminate | now rewrite IH].
    + now rewrite IH.
Qed.

Variable q : ascii -> bool.
Hypothesis sub : forall c, q c = true -> p c = true.

Lemma sub_false (c : ascii) : p c = false -> q c = false.
Proof.
  intros H. destruct (q c) eqn:E; [| reflexivity].
  apply sub in E. congruence.
Qed.

Lemma head_ok_start (s : string) :
  Flow.head_ok p s -> Js.strip_start q s = s.
Proof.
  destruct s as [| c r]; simpl; [reflexivity |].
  intros H. now rewrite (sub_false c H).
Qed.

Lemma end_fixed_sub (s : string) :
  Js.strip_end p s = s -> Js.strip_end q s = s.
Proof.
  induction s as [| c r IH]; [reflexivity |].
  cbn [Js.strip_end]. destruct (Js.strip_end p r) as [| d r'] eqn:E.
  - destruct (p c) eqn:Ec; [discriminate |].
    intros H. injection H as H. subst r. cbn [Js.strip_end].
    now rewrite (sub_false c Ec).
  - intros H. injection H as H.
    rewrite (IH H). destruct r; [discriminate | reflexivity].
Qed.

(** What [strip p] leaves is left alone by a strip of fewer characters. *)
Lemma strip_strip (s : string) : Js.strip q (Js.strip p s) = Js.strip p s.
Proof.
  unfold Js.strip at 1.
  rewrite head_ok_start.
  - apply end_fixed_sub. unfold Js.strip. apply strip_end_fixed.
  - unfold Js.strip. apply strip_end_head, strip_start_head.
Qed.
End Strip.

Lemma space_is_space (c : ascii) :
  Ascii.eqb " " c = true -> Js.is_space c = true.
Proof. intros H. apply Ascii.eqb_eq in H. now subst. Qed.

(** [s.trim().trim()] is [s.trim()]. *)
Lemma trim_trim (s : string) : Js.trim (Js.trim s) = Js.trim s.
Proof. apply strip_strip. auto. Qed.

(** [TRIM] changes nothing in a string that [trim] produced. *)
Lemma TRIM_trim (s : string) : Sql.TRIM (Js.trim s) = Js.trim s.
Proof. apply strip_strip, space_is_space. Qed.

Lemma TRIM_trimmed (s : string) : Js.trim s = s -> Sql.TRIM s = s.
Proof. intros H. rewrite <- H. apply TRIM_trim. Qed.

Lemma trimmed_opt_trim (v : Js.value) :
  Flow.trimmed_text (Spec.trimmed v).
Proof. destruct v; simpl; auto. apply trim_trim. Qed.

Lemma trimmed_section_written (v : Js.value) :
  Flow.trimmed_text (Spec.section_written v).
Proof. destruct v; simpl; auto. apply trim_trim. Qed.

Lemma trimmed_option_map (x : option string) :
  Flow.trimmed_text (option_map Js.trim x).
Proof. destruct x; simpl; auto. apply trim_trim. Qed.

End TrimFacts.


(** ** The admin listing and the sections lookup *)

Module ListingFacts.
Import Http.

Lemma le_class_semester_total (nulls_first : bool)
    (collate : string -> string -> bool) :
  Spec.total collate ->
  Spec.total (Sql.le_class_semester nulls_first collate).
Proof.
  intros T r1 r2. unfold Sql.le_class_semester.
  pose proof (RelFacts.le_nullable_total nulls_first collate T
                (Sql.class_name r1) (Sql.class_name r2)) as C.
  pose proof (RelFacts.le_nullable_total nulls_first Z.leb
                RelFacts.Zleb_total (Sql.semester r1) (Sql.semester r2)) as S.
  destruct (Rel.le_nullable nulls_first collate (Sql.class_name r1)
              (Sql.class_name r2));
    destruct (Rel.le_nullable nulls_first collate (Sql.class_name r2)
                (Sql.class_name r1)); auto.
Qed.

Lemma ordered_listing (nulls_first : bool)
    (collate : string -> string -> bool) (t : list Sql.row) :
  Spec.total collate ->
  Flow.lists_records nulls_first collate
    (Reply 200
       (JArray (map Summary
          (map summary_of
             (Rel.order_by (Sql.le_class_semester nulls_first collate) t)))))
    t.
Proof.
  intros T.
  exists (Rel.order_by (Sql.le_class_semester nulls_first collate) t).
  split; [reflexivity |]. split.
  - apply RelFacts.order_by_perm.
  - apply RelFacts.order_by_ascending, le_class_semester_total, T.
Qed.

Section Sections.
Variable text_to_int : string -> option Z.

Lemma mysql_where (cls sem : option string) (r : Sql.row) :
  MySQL.sections_where text_to_int cls sem r = true
  <-> exists c z s,
        cls = Some c /\ Sql.class_name r = Some c
        /\ Sql.int_of_text text_to_int sem = Some z /\ Sql.semester r = Some z
        /\ Sql.section r = Some s /\ s <> "".
Proof.
  unfold MySQL.sections_where.
  rewrite !andb_true_iff, LookupFacts.text_eq_true, LookupFacts.int_eq_true.
  split.
  - intros [[[[c [C1 C2]] [z [Z1 Z2]]] _] T].
    destruct (Sql.section r) as [s |]; [| discriminate].
    exists c, z, s. simpl in T.
    apply negb_true_iff, String.eqb_neq in T. auto 8.
  - intros [c [z [s [C1 [C2 [Z1 [Z2 [S T]]]]]]]]. rewrite S. simpl.
    repeat split; eauto.
    apply negb_true_iff, String.eqb_neq, T.
Qed.

Lemma mysql_sections (cls sem : option string) (st : Sql.state) :
  Flow.lists_sections (MySQL.sections text_to_int cls sem st false)
    (Flow.carries_exact text_to_int cls sem (Sql.table st)).
Proof.
  exists (MySQL.select_sections text_to_int cls sem (Sql.table st)).
  split; [reflexivity |]. unfold MySQL.select_sections. split.
  - apply (RelFacts.NoDup_distinct _ RelFacts.eqb_option_string).
  - intros o. rewrite (RelFacts.In_distinct _ RelFacts.eqb_option_string).
    rewrite in_map_iff. unfold Flow.carries_exact. split.
    + intros [r [E I]]. apply filter_In in I. destruct I as [I W].
      apply mysql_where in W.
      destruct W as [c [z [s [C1 [C2 [Z1 [Z2 [S T]]]]]]]].
      exists r, c, z, s. repeat split; auto. congruence.
    + intros [r [c [z [s [I [C1 [C2 [Z1 [Z2 [E [S T]]]]]]]]]]].
      exists r. split; [congruence |]. apply filter_In. split; [exact I |].
      apply mysql_where. exists c, z, s. auto 8.
Qed.
End Sections.

End ListingFacts.

(** X1: in both variants the admin listing, when the store executes the
    statement, answers with one summary for every record of the table (no
    record is left out and none is repeated), ordered by class name and, for
    equal class names, by semester; NULL sorts last in the PostgreSQL variant
    and first in the MySQL variant. *)
Theorem records_listing (collate : string -> string -> bool)
    (st : Sql.state) :
  Spec.total collate ->
  Flow.lists_records false collate (Postgres.records collate st false)
    (Sql.table st)
  /\ Flow.lists_records true collate (MySQL.records collate st false)
       (Sql.table st).
Proof.
  intros T. split; now apply ListingFacts.ordered_listing.
Qed.

Lemma records_listing_witness :
  Flow.lists_records false Sample.collate
    (Postgres.records Sample.collate (Sample.store Sample.cs101) false)
    Sample.cs101.
Proof.
  exact (proj1 (records_listing Sample.collate (Sample.store Sample.cs101)
                  String.leb_total)).
Defined.

(** X2: the sections lookup, when the store executes the statement, answers
    with the sections of the records whose class name is exactly the class
    parameter and whose semester is the integer the store reads from the
    semester parameter, each section once.  The PostgreSQL variant leaves out
    the records whose section is NULL or empty after [TRIM]; the MySQL
    variant leaves out those whose section is NULL or exactly the empty
    string. *)
Theorem sections_lookup (text_to_int : string -> option Z)
    (cls sem : option string) (st : Sql.state) :
  Flow.lists_sections (Postgres.sections text_to_int cls sem st false)
    (Spec.carries text_to_int cls sem (Sql.table st))
  /\ Flow.lists_sections (MySQL.sections text_to_int cls sem st false)
       (Flow.carries_exact text_to_int cls sem (Sql.table st)).
Proof.
  split.
  - apply SectionsFacts.postgres_sections.
  - apply ListingFacts.mysql_sections.
Qed.


(** ** What the write paths store is trimmed *)

Module TidyFacts.
Import Http.

Section Tidy.
Variable StringToNumber : string -> Js.number.
Variable text_to_int : string -> option Z.
Variable collate : string -> string -> bool.

Lemma trimmed_trim_or_empty (x : option string) :
  Flow.trimmed_text (Some (Js.trim (Js.or_empty x))).
Proof. simpl. apply TrimFacts.trim_trim. Qed.

Lemma add_rules_tidy (v : Portal.backend) (f : add_form) :
  Flow.tidy_fields (Spec.add_rules StringToNumber text_to_int v f).
Proof.
  destruct v; cbn [Spec.add_rules]; unfold Flow.tidy_fields.
  - cbn [Postgres.add_fields Sql.v_class_name Sql.v_section
         Sql.v_academic_year Sql.v_mentor_name Sql.v_designation
         Sql.v_contact Sql.v_timetable_link].
    repeat split; try apply trimmed_trim_or_empty.
    destruct (a_timetable_link f) as [s |]; [| exact I].
    destruct (Js.truthy s); [apply TrimFacts.trim_trim | exact I].
  - rewrite <- UpdateFacts.written_fields_of_form.
    cbn [Spec.written_fields Sql.v_class_name Sql.v_section
         Sql.v_academic_year Sql.v_mentor_name Sql.v_designation
         Sql.v_contact Sql.v_timetable_link].
    repeat split; try apply TrimFacts.trimmed_opt_trim.
    apply TrimFacts.trimmed_section_written.
Qed.

Lemma written_fields_tidy (b : update_body) :
  Flow.tidy_fields (Spec.written_fields text_to_int b).
Proof.
  unfold Flow.tidy_fields.
  cbn [Spec.written_fields Sql.v_class_name Sql.v_section
       Sql.v_academic_year Sql.v_mentor_name Sql.v_designation
       Sql.v_contact Sql.v_timetable_link].
  repeat split; try apply TrimFacts.trimmed_opt_trim.
  apply TrimFacts.trimmed_section_written.
Qed.

Lemma fields_of_new_row (n : Z) (vals : Sql.fields)
    (sl mp : option string) :
  Spec.fields_of (Sql.new_row n vals sl mp) = vals.
Proof. now destruct vals. Qed.

Lemma fields_of_set_fields (vals : Sql.fields) (r : Sql.row) :
  Spec.fields_of (Sql.set_fields vals r) = vals.
Proof. now destruct vals. Qed.

Lemma handle_keeps_tidy (v : Portal.backend) (rq : Portal.request)
    (st : Sql.state) (fault : bool) :
  Forall Flow.tidy (Sql.table st) ->
  Forall Flow.tidy
    (Sql.table (snd (Portal.handle StringToNumber text_to_int collate v
                       rq st fault))).
Proof.
  intros H. destruct rq.
  - destruct v; exact H.
  - destruct v; exact H.
  - destruct v; exact H.
  - destruct v; exact H.
  - rewrite SectionFacts.add_table. destruct fault; [exact H |].
    apply Forall_app. split; [exact H |]. constructor; [| constructor].
    unfold Flow.tidy. rewrite fields_of_new_row. apply add_rules_tidy.
  - destruct v; exact H.
  - destruct (UpdateFacts.update_table StringToNumber text_to_int collate
                v id b st fault) as [E | [_ [_ E]]]; rewrite E.
    + exact H.
    + unfold Sql.update_where_id. apply Forall_map.
      apply Forall_impl with (2 := H). intros r Hr.
      destruct (Sql.int_eq (Some (Sql.id r)) (text_to_int id));
        [| exact Hr].
      unfold Flow.tidy. rewrite fields_of_set_fields.
      apply written_fields_tidy.
  - destruct v, fault; cbn [Portal.handle];
      unfold Postgres.delete, MySQL.delete; cbn [snd];
      try exact H;
      unfold Sql.with_table, Sql.delete_where_id; cbn [Sql.table];
      rewrite Forall_forall in *; intros r I;
      apply filter_In in I; now apply H.
Qed.

Lemma reachable_tidy (v : Portal.backend) (st : Sql.state) :
  Spec.reachable StringToNumber text_to_int v collate st ->
  Forall Flow.tidy (Sql.table st).
Proof.
  intros R. induction R as [n d | st rq fault R IH].
  - constructor.
  - now apply handle_keeps_tidy.
Qed.

(** On a trimmed section the two filters of the sections lookup agree. *)
Lemma where_agree (cls sem : option string) (r : Sql.row) :
  Flow.tidy r ->
  MySQL.sections_where text_to_int cls sem r
  = Postgres.sections_where text_to_int cls sem r.
Proof.
  intros [_ [S _]]. unfold MySQL.sections_where, Postgres.sections_where.
  f_equal. cbn [Spec.fields_of Sql.v_section] in S.
  destruct (Sql.section r) as [s |]; [| reflexivity].
  simpl in *. now rewrite (TrimFacts.TRIM_trimmed s S).
Qed.
Lemma sections_same (v : Portal.backend) (st : Sql.state)
    (cls sem : option string) (fault : bool) :
  Spec.reachable StringToNumber text_to_int v collate st ->
  MySQL.sections text_to_int cls sem st fault
  = Postgres.sections text_to_int cls sem st fault.
Proof.
  intros R. pose proof (reachable_tidy v st R) as T.
  unfold MySQL.sections, Postgres.sections,
    MySQL.select_sections, Postgres.select_sections.
  destruct fault; [reflexivity |].
  do 5 f_equal. apply filter_ext_in. intros r I.
  apply where_agree.
  rewrite Forall_forall in T. now apply T.
Qed.
End Tidy.

End TidyFacts.

(** X3: in every state the service reaches from an empty table, in either
    variant, the class name, section, academic year, mentor name,
    designation, contact and timetable link of every record are NULL or free
    of white space at both ends: add and update trim every text they
    store. *)
Theorem stored_text_is_trimmed (StringToNumber : string -> Js.number)
    (text_to_int : string -> option Z) (collate : string -> string -> bool)
    (v : Portal.backend) (st : Sql.state) :
  Spec.reachable StringToNumber text_to_int v collate st ->
  Forall Flow.tidy (Sql.table st).
Proof. apply TidyFacts.reachable_tidy. Qed.

Lemma stored_text_is_trimmed_witness :
  Forall Flow.tidy
    (Sql.table
       (snd (Portal.handle Sample.StringToNumber Sample.text_to_int
               Sample.collate Portal.PostgreSQL
               (Portal.PutUpdate "100" Sample.math_body)
               (snd (Portal.handle Sample.StringToNumber Sample.text_to_int
                       Sample.collate Portal.PostgreSQL
                       (Portal.PostAdd Sample.math_form)
                       (Sample.store []) false))
               false))).
Proof.
  apply (stored_text_is_trimmed Sample.StringToNumber Sample.text_to_int
           Sample.collate Portal.PostgreSQL).
  apply Spec.reach_step, Spec.reach_step, Spec.reach_init.
Defined.

(** X4: on the data the service itself has written (every state reached
    from an empty table, in either variant) the sections lookups of the two
    variants list the same sections for every request, each once, when the
    store executes the statement, and both answer 500 with the empty array
    when it raises: the untrimmed comparison of the MySQL variant differs
    from the trimmed one of the PostgreSQL variant only on records written
    by other means.  Nothing is said about the order of the two lists. *)
Theorem sections_agree_on_written_data (StringToNumber : string -> Js.number)
    (text_to_int : string -> option Z) (collate : string -> string -> bool)
    (v : Portal.backend) (st : Sql.state) (cls sem : option string) :
  Spec.reachable StringToNumber text_to_int v collate st ->
  (exists l1 l2,
     MySQL.sections text_to_int cls sem st false
     = Http.Reply 200 (Http.JArray (map Http.Section_ l1))
     /\ Postgres.sections text_to_int cls sem st false
        = Http.Reply 200 (Http.JArray (map Http.Section_ l2))
     /\ NoDup l1 /\ NoDup l2
     /\ forall o, In o l1 <-> In o l2)
  /\ MySQL.sections text_to_int cls sem st true
     = Http.Reply 500 (Http.JArray [])
  /\ Postgres.sections text_to_int cls sem st true
     = Http.Reply 500 (Http.JArray []).
Proof.
  intros R. split; [| split; reflexivity].
  pose proof (TidyFacts.reachable_tidy StringToNumber text_to_int collate
                v st R) as T.
  rewrite Forall_forall in T.
  destruct (ListingFacts.mysql_sections text_to_int cls sem st)
    as [l1 [E1 [N1 M1]]].
  destruct (SectionsFacts.postgres_sections text_to_int cls sem st)
    as [l2 [E2 [N2 M2]]].
  exists l1, l2. repeat split; auto.
  - rewrite M1, M2.
    intros [r [c [z [s [I [C1 [C2 [Z1 [Z2 [E [S Ne]]]]]]]]]]].
    exists r, c, z, s. repeat split; auto.
    pose proof (T r I) as [_ [Ts _]].
    cbn [Spec.fields_of Sql.v_section] in Ts. rewrite S in Ts. cbn in Ts.
    now rewrite (TrimFacts.TRIM_trimmed s Ts).
  - rewrite M1, M2.
    intros [r [c [z [s [I [C1 [C2 [Z1 [Z2 [E [S Ne]]]]]]]]]]].
    exists r, c, z, s. repeat split; auto.
    pose proof (T r I) as [_ [Ts _]].
    cbn [Spec.fields_of Sql.v_section] in Ts. rewrite S in Ts. cbn in Ts.
    now rewrite (TrimFacts.TRIM_trimmed s Ts) in Ne.
Qed.

Lemma sections_agree_on_written_data_witness :
  let st := snd (Portal.handle Sample.StringToNumber Sample.text_to_int
                   Sample.collate Portal.MySQL_
                   (Portal.PutUpdate "100" Sample.math_body)
                   (snd (Portal.handle Sample.StringToNumber
                           Sample.text_to_int Sample.collate Portal.MySQL_
                           (Portal.PostAdd Sample.math_form)
                           (Sample.store []) false))
                   false) in
  exists l1 l2,
    MySQL.sections Sample.text_to_int (Some "Math") (Some "2") st false
    = Http.Reply 200 (Http.JArray (map Http.Section_ l1))
    /\ Postgres.sections Sample.text_to_int (Some "Math") (Some "2") st
         false
       = Http.Reply 200 (Http.JArray (map Http.Section_ l2))
    /\ NoDup l1 /\ NoDup l2
    /\ forall o, In o l1 <-> In o l2.
Proof.
  intros st.
  apply (sections_agree_on_written_data Sample.StringToNumber
           Sample.text_to_int Sample.collate Portal.MySQL_).
  apply Spec.reach_step, Spec.reach_step, Spec.reach_init.
Defined.


(** ** Writing a record and looking it up *)

Module RoundTripFacts.
Import Http.

Section RoundTrip.
Variable StringToNumber : string -> Js.number.
Variable text_to_int : string -> option Z.
Variable collate : string -> string -> bool.

Lemma handle_details (v : Portal.backend) (q : details_query)
    (st : Sql.state) (fault : bool) :
  fst (Portal.handle StringToNumber text_to_int collate v
         (Portal.GetDetails q) st fault)
  = Postgres.details StringToNumber text_to_int q st fault.
Proof. destruct v; reflexivity. Qed.

(** When the table holds a wanted record, the answer is a wanted record of
    the table. *)
Lemma found (q : details_query) (st : Sql.state) (r0 : Sql.row) :
  In r0 (Sql.table st) -> Spec.wanted StringToNumber q r0 ->
  Flow.is_record (Postgres.details StringToNumber text_to_int q st false)
    (fun r => In r (Sql.table st) /\ Spec.wanted StringToNumber q r).
Proof.
  intros I W. unfold Postgres.details.
  rewrite DetailsFacts.details_rows_chosen.
  destruct (RelFacts.limit1_filter
              (Spec.chosen_filter StringToNumber text_to_int q)
              (Sql.table st)) as [[_ N] | [r [H [Ir P]]]].
  - apply (proj2 (DetailsFacts.chosen_filter_wanted
                    StringToNumber text_to_int q r0)) in W.
    rewrite (N r0 I) in W. discriminate.
  - rewrite H. exists r. split; [reflexivity |]. split; [exact Ir |].
    exact (proj1 (DetailsFacts.chosen_filter_wanted
                    StringToNumber text_to_int q r) P).
Qed.

(** A record whose class name and section are what the write paths make of
    the submitted class and section is wanted by the request that submits
    the same class and section. *)
Lemma written_is_wanted (r : Sql.row) (c : string) (sec sem : option string)
    (z : Z) :
  Sql.class_name r = Some (Js.trim c) ->
  Sql.semester r = Some z ->
  Js.Number StringToNumber sem = Js.Int z ->
  Sql.section r = Spec.section_written (Spec.of_field sec) ->
  Spec.wanted StringToNumber
    {| q_class := Some c; q_semester := sem; q_section := sec |} r.
Proof.
  intros C Z N S. unfold Spec.wanted, Spec.of_class_and_semester.
  cbn [q_class q_semester q_section]. split; [split |].
  - exists (Js.trim c), c. repeat split; [exact C |].
    apply TrimFacts.TRIM_trim.
  - exists z. auto.
  - destruct sec as [s |]; cbn [Spec.of_field Spec.section_written] in S.
    + destruct (Js.trim s =? "")%string eqn:E.
      * right. exists (Js.trim s). split; [exact S |].
        apply String.eqb_eq in E. now rewrite E.
      * exists (Js.trim s). split; [exact S |]. apply TrimFacts.TRIM_trim.
    + right. exists "". split; [exact S | reflexivity].
Qed.

Lemma add_rules_class (v : Portal.backend) (f : add_form) (c : string) :
  a_class_name f = Some c ->
  Sql.v_class_name (Spec.add_rules StringToNumber text_to_int v f)
  = Some (Js.trim c).
Proof.
  intros H. destruct v; cbn [Spec.add_rules].
  - cbn [Postgres.add_fields Sql.v_class_name]. rewrite H.
    f_equal. unfold Js.or_empty, Js.truthy.
    destruct (c =? "")%string eqn:E; [| reflexivity].
    apply String.eqb_eq in E. now subst.
  - cbn [MySQL.add_fields Sql.v_class_name]. now rewrite H.
Qed.

(** A wanted record of a trimmed table has exactly the class, semester and
    section of a request whose class and section are trimmed. *)
Lemma wanted_exact (r : Sql.row) (c sem sec : string) (z : Z) :
  Flow.tidy r ->
  Js.trim c = c -> Js.trim sec = sec -> sec <> "" ->
  StringToNumber sem = Js.Int z ->
  Spec.wanted StringToNumber
    {| q_class := Some c; q_semester := Some sem; q_section := Some sec |} r ->
  Sql.class_name r = Some c /\ Sql.semester r = Some z
  /\ Sql.section r = Some sec.
Proof.
  intros [Tc [Ts _]] Hc Hs Ne N [[[cn [c0 [C1 [C2 C3]]]] [z0 [Z1 Z2]]] W].
  cbn [q_class q_semester q_section Js.Number] in *.
  cbn [Spec.fields_of Sql.v_class_name Sql.v_section] in Tc, Ts.
  injection C2 as <-. rewrite N in Z1. injection Z1 as <-.
  rewrite C1 in Tc. cbn in Tc.
  rewrite (TrimFacts.TRIM_trimmed cn Tc), Hc in C3. subst cn.
  split; [exact C1 |]. split; [exact Z2 |].
  rewrite Hs in W.
  destruct (sec =? "")%string eqn:E;
    [apply String.eqb_eq in E; contradiction |].
  destruct W as [s [S1 S2]]. rewrite S1 in Ts. cbn in Ts.
  rewrite (TrimFacts.TRIM_trimmed s Ts), Hs in S2. now subst s.
Qed.
End RoundTrip.

End RoundTripFacts.

(** X5: in both variants, after an executed add of a form that carries a
    class name and a semester that both [Number] and the store read as the
    integer [z], the details lookup with the class, semester and section of
    the form, as submitted, answers with a record (never null) that is wanted
    by that request; the added record is itself wanted, and it is the answer
    when no earlier record was. *)
Theorem add_then_details (StringToNumber : string -> Js.number)
    (text_to_int : string -> option Z) (collate : string -> string -> bool)
    (v : Portal.backend) (f : Http.add_form) (st : Sql.state)
    (c : string) (z : Z) :
  Http.a_class_name f = Some c ->
  Js.Number StringToNumber (Http.a_semester f) = Js.Int z ->
  Sql.v_semester (Spec.add_rules StringToNumber text_to_int v f) = Some z ->
  let st' := snd (Portal.handle StringToNumber text_to_int collate v
                    (Portal.PostAdd f) st false) in
  let q := {| Http.q_class := Http.a_class_name f;
              Http.q_semester := Http.a_semester f;
              Http.q_section := Http.a_section f |} in
  let added := Sql.new_row (Sql.serial st)
                 (Spec.add_rules StringToNumber text_to_int v f)
                 (Upload.syllabusPath f) (Upload.photoPath f) in
  let answer := fst (Portal.handle StringToNumber text_to_int collate v
                       (Portal.GetDetails q) st' false) in
  Spec.wanted StringToNumber q added
  /\ Flow.is_record answer
       (fun r => In r (Sql.table st') /\ Spec.wanted StringToNumber q r)
  /\ ((forall r, In r (Sql.table st) -> ~ Spec.wanted StringToNumber q r) ->
      answer = Http.Reply 200 (Http.JRecord added)).
Proof.
  intros C N Z st' q added answer.
  assert (T : Sql.table st' = (Sql.table st ++ [added])%list)
    by (subst st'; now rewrite SectionFacts.add_table).
  assert (W : Spec.wanted StringToNumber q added).
  { subst q. rewrite C.
    apply RoundTripFacts.written_is_wanted with (z := z).
    - subst added. cbn [Sql.new_row Sql.class_name].
      now apply RoundTripFacts.add_rules_class.
    - exact Z.
    - exact N.
    - subst added. cbn [Sql.new_row Sql.section].
      apply SectionFacts.add_fields_section. }
  assert (A : Flow.is_record answer
                (fun r => In r (Sql.table st')
                          /\ Spec.wanted StringToNumber q r)).
  { subst answer. rewrite RoundTripFacts.handle_details.
    apply RoundTripFacts.found with (r0 := added); [| exact W].
    rewrite T. apply in_or_app. right. now left. }
  split; [exact W |]. split; [exact A |].
  intros None_before. destruct A as [r [E [I Wr]]]. rewrite E.
  rewrite T in I. apply in_app_or in I. destruct I as [I | [<- | []]].
  - exfalso. exact (None_before r I Wr).
  - reflexivity.
Qed.

Lemma add_then_details_witness :
  let st' := snd (Portal.handle Sample.StringToNumber Sample.text_to_int
                    Sample.collate Portal.MySQL_
                    (Portal.PostAdd Sample.math_form) (Sample.store [])
                    false) in
  Flow.is_record
    (fst (Portal.handle Sample.StringToNumber Sample.text_to_int
            Sample.collate Portal.MySQL_
            (Portal.GetDetails
               {| Http.q_class := Some " Math "; Http.q_semester := Some "1";
                  Http.q_section := Some "  " |}) st' false))
    (fun r => In r (Sql.table st')
              /\ Spec.wanted Sample.StringToNumber
                   {| Http.q_class := Some " Math ";
                      Http.q_semester := Some "1";
                      Http.q_section := Some "  " |} r).
Proof.
  exact (proj1 (proj2
    (add_then_details Sample.StringToNumber Sample.text_to_int
       Sample.collate Portal.MySQL_ Sample.math_form (Sample.store [])
       " Math " 1 eq_refl eq_refl eq_refl))).
Defined.

(** X6: in both variants, after an executed update of an existing id whose
    body carries a class name as a string, text fields that are strings,
    null or absent, and a semester the store reads as the integer [z], the
    details lookup with that class, a semester parameter that [Number] reads
    as [z], and the section of the body answers with a record (never null)
    that is wanted by that request. *)
Theorem update_then_details (StringToNumber : string -> Js.number)
    (text_to_int : string -> option Z) (collate : string -> string -> bool)
    (v : Portal.backend) (id : string) (b : Http.update_body)
    (st : Sql.state) (c : string) (sem : option string) (z : Z)
    (r0 : Sql.row) :
  Spec.text_fields b = true ->
  Http.u_class_name b = Js.Str c ->
  Sql.int_param text_to_int (Http.u_semester b) = Some z ->
  Js.Number StringToNumber sem = Js.Int z ->
  In r0 (Sql.table st) ->
  Spec.id_is text_to_int id r0 = true ->
  let st' := snd (Portal.handle StringToNumber text_to_int collate v
                    (Portal.PutUpdate id b) st false) in
  let q := {| Http.q_class := Some c;
              Http.q_semester := sem;
              Http.q_section := match Http.u_section b with
                                | Js.Str s => Some s
                                | _ => None
                                end |} in
  Flow.is_record
    (fst (Portal.handle StringToNumber text_to_int collate v
            (Portal.GetDetails q) st' false))
    (fun r => In r (Sql.table st') /\ Spec.wanted StringToNumber q r).
Proof.
  intros T C Z N I M st' q.
  rewrite RoundTripFacts.handle_details.
  apply RoundTripFacts.found
    with (r0 := Sql.set_fields (Spec.written_fields text_to_int b) r0).
  - subst st'.
    rewrite (UpdateFacts.update_response StringToNumber text_to_int collate
               v id b st T).
    cbn [snd Sql.with_table Sql.table]. unfold Sql.update_where_id.
    apply in_map_iff. exists r0. split; [| exact I].
    unfold Spec.id_is in M. now rewrite M.
  - subst q. apply RoundTripFacts.written_is_wanted with (z := z).
    + cbn [Sql.set_fields Sql.class_name Spec.written_fields
           Sql.v_class_name]. now rewrite C.
    + exact Z.
    + exact N.
    + cbn [Sql.set_fields Sql.section Spec.written_fields Sql.v_section].
      destruct (Http.u_section b); reflexivity.
Qed.

Lemma update_then_details_witness :
  let st := Sample.store [Sample.blank 7 "Physics" 1 None] in
  let st' := snd (Portal.handle Sample.StringToNumber Sample.text_to_int
                    Sample.collate Portal.PostgreSQL
                    (Portal.PutUpdate "7" Sample.math_body) st false) in
  let q := {| Http.q_class := Some " Math "; Http.q_semester := Some "2";
              Http.q_section := Some " B " |} in
  Flow.is_record
    (fst (Portal.handle Sample.StringToNumber Sample.text_to_int
            Sample.collate Portal.PostgreSQL (Portal.GetDetails q) st'
            false))
    (fun r => In r (Sql.table st') /\ Spec.wanted Sample.StringToNumber q r).
Proof.
  exact (update_then_details Sample.StringToNumber Sample.text_to_int
           Sample.collate Portal.PostgreSQL "7" Sample.math_body
           (Sample.store [Sample.blank 7 "Physics" 1 None])
           " Math " (Some "2") 2 (Sample.blank 7 "Physics" 1 None)
           eq_refl eq_refl eq_refl eq_refl (or_introl eq_refl) eq_refl).
Defined.

(** X7: on the data the service itself has written (every state reached
    from an empty table, in either variant), every section the sections
    lookup lists for a class and a semester resolves in the details lookup:
    when [Number] and the store read the semester parameter as the same
    integer, the details lookup for that class, semester and listed section
    answers with a record of the table that has exactly that class name,
    semester and section. *)
Theorem listed_section_resolves (StringToNumber : string -> Js.number)
    (text_to_int : string -> option Z) (collate : string -> string -> bool)
    (v : Portal.backend) (st : Sql.state) (c sem sec : string) (z : Z)
    (l : list Http.item) :
  Spec.reachable StringToNumber text_to_int v collate st ->
  text_to_int sem = Some z ->
  StringToNumber sem = Js.Int z ->
  fst (Portal.handle StringToNumber text_to_int collate v
         (Portal.GetSections (Some c) (Some sem)) st false)
  = Http.Reply 200 (Http.JArray l) ->
  In (Http.Section_ (Some sec)) l ->
  Flow.is_record
    (fst (Portal.handle StringToNumber text_to_int collate v
            (Portal.GetDetails
               {| Http.q_class := Some c; Http.q_semester := Some sem;
                  Http.q_section := Some sec |}) st false))
    (fun r => In r (Sql.table st)
              /\ Sql.class_name r = Some c
              /\ Sql.semester r = Some z
              /\ Sql.section r = Some sec).
Proof.
  intros R Z N L I.
  pose proof (TidyFacts.reachable_tidy StringToNumber text_to_int collate
                v st R) as T.
  rewrite Forall_forall in T.
  assert (E : fst (Portal.handle StringToNumber text_to_int collate v
                     (Portal.GetSections (Some c) (Some sem)) st false)
              = Postgres.sections text_to_int (Some c) (Some sem) st false).
  { destruct v; [reflexivity |]. cbn [Portal.handle fst].
    apply (TidyFacts.sections_same StringToNumber text_to_int collate
             Portal.MySQL_ st (Some c) (Some sem) false R). }
  rewrite E in L.
  destruct (SectionsFacts.postgres_sections text_to_int (Some c) (Some sem)
              st) as [l' [L' [_ M]]].
  rewrite L' in L. injection L as <-.
  apply in_map_iff in I. destruct I as [o [Eo Io]].
  injection Eo as ->. apply M in Io.
  destruct Io as [r [c' [z' [s [Ir [C1 [C2 [Z1 [Z2 [S0 [S1 S2]]]]]]]]]]].
  injection C1 as <-. injection S0 as <-.
  cbn [Sql.int_of_text] in Z1. rewrite Z in Z1. injection Z1 as <-.
  pose proof (T r Ir) as [Tc [Ts _]].
  cbn [Spec.fields_of Sql.v_class_name Sql.v_section] in Tc, Ts.
  rewrite C2 in Tc. rewrite S1 in Ts. cbn in Tc, Ts.
  assert (Ne : sec <> "")
    by (rewrite (TrimFacts.TRIM_trimmed sec Ts) in S2; exact S2).
  assert (W : Spec.wanted StringToNumber
                {| Http.q_class := Some c; Http.q_semester := Some sem;
                   Http.q_section := Some sec |} r).
  { apply RoundTripFacts.written_is_wanted with (z := z).
    - now rewrite Tc.
    - exact Z2.
    - exact N.
    - cbn [Spec.of_field Spec.section_written]. now rewrite Ts. }
  rewrite RoundTripFacts.handle_details.
  destruct (RoundTripFacts.found StringToNumber text_to_int _ st r Ir W)
    as [r' [A [Ir' W']]].
  exists r'. split; [exact A |]. split; [exact Ir' |].
  apply (RoundTripFacts.wanted_exact StringToNumber r' c sem sec z);
    auto.
Qed.

Lemma listed_section_resolves_witness :
  let st := snd (Portal.handle Sample.StringToNumber Sample.text_to_int
                   Sample.collate Portal.PostgreSQL
                   (Portal.PutUpdate "100" Sample.math_body)
                   (snd (Portal.handle Sample.StringToNumber
                           Sample.text_to_int Sample.collate
                           Portal.PostgreSQL
                           (Portal.PostAdd Sample.math_form)
                           (Sample.store []) false))
                   false) in
  Flow.is_record
    (fst (Portal.handle Sample.StringToNumber Sample.text_to_int
            Sample.collate Portal.PostgreSQL
            (Portal.GetDetails
               {| Http.q_class := Some "Math"; Http.q_semester := Some "2";
                  Http.q_section := Some "B" |}) st false))
    (fun r => In r (Sql.table st)
              /\ Sql.class_name r = Some "Math"
              /\ Sql.semester r = Some 2
              /\ Sql.section r = Some "B").
Proof.
  intros st.
  apply (listed_section_resolves Sample.StringToNumber Sample.text_to_int
           Sample.collate Portal.PostgreSQL st "Math" "2" "B" 2
           [Http.Section_ (Some "B")]).
  - apply Spec.reach_step, Spec.reach_step, Spec.reach_init.
  - reflexivity.
  - reflexivity.
  - reflexivity.
  - now left.
Defined.


(** ** Uploaded files *)

Module FileFacts.
Import Http.

Section Files.
Variable StringToNumber : string -> Js.number.
Variable text_to_int : string -> option Z.
Variable collate : string -> string -> bool.

Lemma handle_disk (v : Portal.backend) (rq : Portal.request)
    (st : Sql.state) (fault : bool) :
  Sql.disk (snd (Portal.handle StringToNumber text_to_int collate v rq st
                   fault))
  = (Sql.disk st ++ Flow.files_added rq)%list.
Proof.
  destruct rq; cbn [Flow.files_added]; rewrite ?app_nil_r.
  - destruct v; reflexivity.
  - destruct v; reflexivity.
  - destruct v; reflexivity.
  - destruct v; reflexivity.
  - destruct v, fault; reflexivity.
  - destruct v; reflexivity.
  - destruct (WriteFacts.update_fields_cases text_to_int b)
      as [[T E] | [T E]];
      destruct v, fault; cbn [Portal.handle];
      unfold Postgres.update, MySQL.update;
      rewrite ?WriteFacts.same_update_fields, E; reflexivity.
  - destruct v, fault; reflexivity.
Qed.

Lemma link_ok_more (files more : list string) (link : option string) :
  Flow.link_ok files link -> Flow.link_ok (files ++ more) link.
Proof.
  destruct link as [p |]; simpl; [| auto].
  intros [f [I E]]. exists f. split; [| exact E].
  apply in_or_app. now left.
Qed.

Lemma syllabus_link_ok (f : add_form) (files : list string) :
  Flow.link_ok (files ++ Flow.files_of f) (Upload.syllabusPath f).
Proof.
  unfold Upload.syllabusPath, Flow.files_of.
  destruct (a_syllabus f) as [u |]; [| exact I].
  exists ("uploads/syllabus/" ++ Upload.filename u)%string.
  split; [| reflexivity].
  apply in_or_app. right. apply in_or_app. left. now left.
Qed.

Lemma photo_link_ok (f : add_form) (files : list string) :
  Flow.link_ok (files ++ Flow.files_of f) (Upload.photoPath f).
Proof.
  unfold Upload.photoPath, Flow.files_of.
  destruct (a_mentor_photo f) as [u |]; [| exact I].
  exists ("uploads/mentors/" ++ Upload.filename u)%string.
  split; [| reflexivity].
  apply in_or_app. right. apply in_or_app. right. now left.
Qed.

Lemma handle_keeps_linked (v : Portal.backend) (rq : Portal.request)
    (st : Sql.state) (fault : bool) :
  Flow.linked st ->
  Flow.linked (snd (Portal.handle StringToNumber text_to_int collate v rq
                      st fault)).
Proof.
  unfold Flow.linked. intros H. rewrite handle_disk.
  assert (H' : Forall
            (fun r =>
               Flow.link_ok (Sql.disk st ++ Flow.files_added rq)
                 (Sql.syllabus_link r)
               /\ Flow.link_ok (Sql.disk st ++ Flow.files_added rq)
                    (Sql.mentor_photo r))
            (Sql.table st)).
  { apply Forall_impl with (2 := H). intros r [A B].
    split; now apply link_ok_more. }
  clear H. destruct rq.
  - destruct v; exact H'.
  - destruct v; exact H'.
  - destruct v; exact H'.
  - destruct v; exact H'.
  - rewrite SectionFacts.add_table. destruct fault; [exact H' |].
    apply Forall_app. split; [exact H' |]. constructor; [| constructor].
    cbn [Sql.new_row Sql.syllabus_link Sql.mentor_photo Flow.files_added].
    split; [apply syllabus_link_ok | apply photo_link_ok].
  - destruct v; exact H'.
  - destruct (UpdateFacts.update_table StringToNumber text_to_int collate
                v id b st fault) as [E | [_ [_ E]]]; rewrite E.
    + exact H'.
    + unfold Sql.update_where_id. apply Forall_map.
      apply Forall_impl with (2 := H'). intros r Hr.
      destruct (Sql.int_eq (Some (Sql.id r)) (text_to_int id)); exact Hr.
  - destruct v, fault; cbn [Portal.handle];
      unfold Postgres.delete, MySQL.delete; cbn [snd];
      try exact H';
      unfold Sql.with_table, Sql.delete_where_id; cbn [Sql.table];
      rewrite Forall_forall in *; intros r I;
      apply filter_In in I; now apply H'.
Qed.
End Files.

End FileFacts.

(** X8: in both variants, when the store raises on the INSERT of an add,
    the answer is status 500 with the error "Insert failed", the table is
    unchanged, and the uploaded files have nevertheless been written: the
    upload middleware stores them before the handler runs, and nothing
    removes them. *)
Theorem add_fault_keeps_files (StringToNumber : string -> Js.number)
    (text_to_int : string -> option Z) (collate : string -> string -> bool)
    (v : Portal.backend) (f : Http.add_form) (st : Sql.state) :
  let out := Portal.handle StringToNumber text_to_int collate v
               (Portal.PostAdd f) st true in
  fst out = Http.Reply 500 (Http.JError "Insert failed")
  /\ Sql.table (snd out) = Sql.table st
  /\ (forall u, Http.a_syllabus f = Some u ->
        In ("uploads/syllabus/" ++ Upload.filename u)%string
          (Sql.disk (snd out)))
  /\ (forall u, Http.a_mentor_photo f = Some u ->
        In ("uploads/mentors/" ++ Upload.filename u)%string
          (Sql.disk (snd out))).
Proof.
  intros out. subst out.
  split; [destruct v; reflexivity |].
  split; [destruct v; reflexivity |].
  rewrite FileFacts.handle_disk. cbn [Flow.files_added].
  unfold Flow.files_of. split; intros u H; rewrite H;
    apply in_or_app; right; apply in_or_app; [left | right]; now left.
Qed.

Lemma add_fault_keeps_files_witness :
  let out := Portal.handle Sample.StringToNumber Sample.text_to_int
               Sample.collate Portal.PostgreSQL
               (Portal.PostAdd Sample.math_form) (Sample.store []) true in
  In "uploads/syllabus/1700000000000_my_syllabus_2024.pdf"
    (Sql.disk (snd out))
  /\ Sql.table (snd out) = [].
Proof.
  intros out.
  destruct (add_fault_keeps_files Sample.StringToNumber Sample.text_to_int
              Sample.collate Portal.PostgreSQL Sample.math_form
              (Sample.store [])) as [_ [T [S _]]].
  split; [exact (S _ eq_refl) | exact T].
Defined.

(** X9: no route removes or renames a stored file.  After any request, in
    either variant and whatever the store does, the files on disk are those
    that were there followed by the files the request uploaded; only add
    uploads files, so update and delete leave the files of the records they
    touch in place. *)
Theorem files_are_only_added (StringToNumber : string -> Js.number)
    (text_to_int : string -> option Z) (collate : string -> string -> bool)
    (v : Portal.backend) (rq : Portal.request) (st : Sql.state)
    (fault : bool) :
  Sql.disk (snd (Portal.handle StringToNumber text_to_int collate v rq st
                   fault))
  = (Sql.disk st
     ++ match rq with
        | Portal.PostAdd f =>
            Upload.written "syllabus" (Http.a_syllabus f)
            ++ Upload.written "mentor_photo" (Http.a_mentor_photo f)
        | _ => []
        end)%list.
Proof.
  rewrite FileFacts.handle_disk. destruct rq; reflexivity.
Qed.

(** X10: every attachment link the service stores points to a file it has
    written.  In every state reached from an empty table, in either variant,
    the syllabus link and the mentor photo link of every record are NULL or
    the public path of a file that is on disk. *)
Theorem links_point_to_files (StringToNumber : string -> Js.number)
    (text_to_int : string -> option Z) (collate : string -> string -> bool)
    (v : Portal.backend) (st : Sql.state) :
  Spec.reachable StringToNumber text_to_int v collate st ->
  Flow.linked st.
Proof.
  intros R. induction R as [n d | st rq fault R IH].
  - constructor.
  - now apply FileFacts.handle_keeps_linked.
Qed.

Lemma links_point_to_files_witness :
  Flow.linked
    (snd (Portal.handle Sample.StringToNumber Sample.text_to_int
            Sample.collate Portal.MySQL_
            (Portal.DeleteRecord "7")
            (snd (Portal.handle Sample.StringToNumber Sample.text_to_int
                    Sample.collate Portal.MySQL_
                    (Portal.PostAdd Sample.math_form) (Sample.store [])
                    false))
            false)).
Proof.
  apply (links_point_to_files Sample.StringToNumber Sample.text_to_int
           Sample.collate Portal.MySQL_).
  apply Spec.reach_step, Spec.reach_step, Spec.reach_init.
Defined.


(** ** Stored file names *)

Module NameFacts.

Lemma digits_no_underscore (d : Decimal.uint) :
  Flow.no_underscore (NilEmpty.string_of_uint d).
Proof.
  unfold Flow.no_underscore.
  induction d; simpl; constructor; try discriminate; assumption.
Qed.

Lemma string_of_N_inj (n m : N) :
  Js.string_of_N n = Js.string_of_N m -> n = m.
Proof.
  unfold Js.string_of_N. intros H.
  apply DecimalN.Unsigned.to_uint_inj.
  pose proof (NilEmpty.usu (N.to_uint n)) as A.
  pose proof (NilEmpty.usu (N.to_uint m)) as B.
  rewrite H in A. congruence.
Qed.

(** Two strings that agree and whose parts before the underscore hold no
    underscore agree part by part. *)
Lemma underscore_split (a b x y : string) :
  Flow.no_underscore a -> Flow.no_underscore b ->
  (a ++ String "_" x)%string = (b ++ String "_" y)%string ->
  a = b /\ x = y.
Proof.
  unfold Flow.no_underscore. revert b.
  induction a as [| c a IH]; intros [| d b] Ha Hb H; simpl in *.
  - injection H as H. auto.
  - injection H as H1 H2. inversion Hb; subst. contradiction.
  - injection H as H1 H2. inversion Ha; subst. contradiction.
  - injection H as H1 H2. inversion Ha; inversion Hb; subst.
    destruct (IH b) as [E1 E2]; auto. now subst.
Qed.

End NameFacts.

(** X11: two uploads are stored under the same file name only if they have
    the same time stamp and their original names agree once white space is
    replaced, so uploads named at different milliseconds never collide; and
    a syllabus and a mentor photo are never stored under the same path,
    whatever their names and time stamps. *)
Theorem stored_names_collide_only_on_same_stamp :
  (forall u1 u2,
     Upload.filename u1 = Upload.filename u2 ->
     Http.received u1 = Http.received u2
     /\ Js.replace_spaces (Http.originalname u1)
        = Js.replace_spaces (Http.originalname u2))
  /\ (forall u1 u2,
        Upload.stored_path "syllabus" u1
        <> Upload.stored_path "mentor_photo" u2).
Proof.
  split.
  - intros u1 u2 H. unfold Upload.filename in H. cbn zeta in H.
    apply NameFacts.underscore_split in H.
    + destruct H as [A B]. split; [| exact B].
      now apply NameFacts.string_of_N_inj.
    + apply NameFacts.digits_no_underscore.
    + apply NameFacts.digits_no_underscore.
  - intros u1 u2 H. cbv [Upload.stored_path Upload.destination] in H.
    simpl in H. discriminate H.
Qed.

Lemma stored_names_collide_only_on_same_stamp_witness :
  let u1 := {| Http.originalname := "a b.pdf"; Http.received := 5 |} in
  let u2 := {| Http.originalname := "a   b.pdf"; Http.received := 5 |} in
  Upload.filename u1 = Upload.filename u2
  /\ Http.received u1 = Http.received u2
  /\ Js.replace_spaces (Http.originalname u1)
     = Js.replace_spaces (Http.originalname u2).
Proof.
  intros u1 u2. split; [reflexivity |].
  exact (proj1 stored_names_collide_only_on_same_stamp u1 u2 eq_refl).
Defined.


(** ** Requests with missing or ill-typed parts *)

Module EdgeFacts.
Import Http.

Lemma filter_nothing {A : Type} (p : A -> bool) (l : list A) :
  (forall x, In x l -> p x = false) -> filter p l = [].
Proof.
  intros H. apply LookupFacts.empty_of_no_member. intros x I.
  apply filter_In in I. destruct I as [I P].
  rewrite (H x I) in P. discriminate.
Qed.

Lemma text_eq_null (col : option string) : Sql.text_eq col None = false.
Proof. now destruct col. Qed.

Lemma int_eq_null (col : option Z) : Sql.int_eq col None = false.
Proof. now destruct col. Qed.

Section Edge.
Variable StringToNumber : string -> Js.number.
Variable text_to_int : string -> option Z.

Lemma nothing_wanted_null (q : details_query) (st : Sql.state) :
  (forall r, ~ Spec.wanted StringToNumber q r) ->
  Postgres.details StringToNumber text_to_int q st false = Reply 200 JNull.
Proof.
  intros H. unfold Postgres.details.
  rewrite DetailsFacts.details_rows_chosen.
  destruct (RelFacts.limit1_filter
              (Spec.chosen_filter StringToNumber text_to_int q)
              (Sql.table st)) as [[E _] | [r [_ [_ P]]]].
  - now rewrite E.
  - exfalso. apply (H r).
    exact (proj1 (DetailsFacts.chosen_filter_wanted
                    StringToNumber text_to_int q r) P).
Qed.

(** A record the details lookup answers with is a record of the table. *)
Lemma answer_in_table (q : details_query) (st : Sql.state) (r : Sql.row) :
  Postgres.details StringToNumber text_to_int q st false
  = Reply 200 (JRecord r) ->
  In r (Sql.table st).
Proof.
  unfold Postgres.details. rewrite DetailsFacts.details_rows_chosen.
  destruct (RelFacts.limit1_filter
              (Spec.chosen_filter StringToNumber text_to_int q)
              (Sql.table st)) as [[E _] | [r' [E [I _]]]]; rewrite E.
  - discriminate.
  - intros H. injection H as <-. exact I.
Qed.
End Edge.

End EdgeFacts.

(** X12: a lookup that lacks the class parameter finds nothing and is no
    error, and neither is a sections lookup that lacks the semester.  In
    both variants, for a semester parameter that [Number] and the store
    read as an integer and when the store executes the statement, the
    semesters lookup without class and the sections lookup without class,
    without semester, or without both answer with the empty array, and the
    details lookup without class answers with null, all with status 200 and
    whatever the table holds. *)
Theorem lookups_without_parameters (StringToNumber : string -> Js.number)
    (text_to_int : string -> option Z) (collate : string -> string -> bool)
    (v : Portal.backend) (st : Sql.state) (sem : string) (z : Z) :
  text_to_int sem = Some z ->
  StringToNumber sem = Js.Int z ->
  fst (Portal.handle StringToNumber text_to_int collate v
         (Portal.GetSemesters None) st false)
  = Http.Reply 200 (Http.JArray [])
  /\ fst (Portal.handle StringToNumber text_to_int collate v
            (Portal.GetSections None (Some sem)) st false)
     = Http.Reply 200 (Http.JArray [])
  /\ fst (Portal.handle StringToNumber text_to_int collate v
            (Portal.GetSections None None) st false)
     = Http.Reply 200 (Http.JArray [])
  /\ (forall cls,
        fst (Portal.handle StringToNumber text_to_int collate v
               (Portal.GetSections cls None) st false)
        = Http.Reply 200 (Http.JArray []))
  /\ (forall sec,
        fst (Portal.handle StringToNumber text_to_int collate v
               (Portal.GetDetails
                  {| Http.q_class := None; Http.q_semester := Some sem;
                     Http.q_section := sec |}) st false)
        = Http.Reply 200 Http.JNull).
Proof.
  intros _ _.
  assert (No_class : forall s,
    fst (Portal.handle StringToNumber text_to_int collate v
           (Portal.GetSections None s) st false)
    = Http.Reply 200 (Http.JArray [])).
  { intros s. destruct v; cbn [Portal.handle fst];
      unfold Postgres.sections, MySQL.sections,
        Postgres.select_sections, MySQL.select_sections;
      rewrite EdgeFacts.filter_nothing;
      try reflexivity; intros r _;
      unfold Postgres.sections_where, MySQL.sections_where;
      now rewrite EdgeFacts.text_eq_null. }
  split; [| split; [| split; [| split]]].
  - destruct v; cbn [Portal.handle fst];
      unfold Postgres.semesters, MySQL.semesters,
        Postgres.select_semesters, MySQL.select_semesters;
      rewrite EdgeFacts.filter_nothing;
      try reflexivity; intros r _; apply EdgeFacts.text_eq_null.
  - apply No_class.
  - apply No_class.
  - intros cls. destruct v; cbn [Portal.handle fst];
      unfold Postgres.sections, MySQL.sections,
        Postgres.select_sections, MySQL.select_sections;
      rewrite EdgeFacts.filter_nothing;
      try reflexivity; intros r _;
      unfold Postgres.sections_where, MySQL.sections_where;
      cbn [Sql.int_of_text];
      now rewrite EdgeFacts.int_eq_null, andb_false_r.
  - intros sec. rewrite RoundTripFacts.handle_details.
    apply EdgeFacts.nothing_wanted_null.
    intros r [[[cn [c [_ [C _]]]] _] _]. discriminate C.
Qed.

Lemma lookups_without_parameters_witness :
  fst (Portal.handle Sample.StringToNumber Sample.text_to_int
         Sample.collate Portal.PostgreSQL
         (Portal.GetDetails
            {| Http.q_class := None; Http.q_semester := Some "3";
               Http.q_section := Some "A" |})
         (Sample.store Sample.cs101) false)
  = Http.Reply 200 Http.JNull.
Proof.
  destruct (lookups_without_parameters Sample.StringToNumber
              Sample.text_to_int Sample.collate Portal.PostgreSQL
              (Sample.store Sample.cs101) "3" 3 eq_refl eq_refl)
    as [_ [_ [_ [_ D]]]].
  exact (D (Some "A")).
Defined.

(** X13: in both variants an executed delete, for a path parameter the
    store reads as the integer [z], removes exactly the records whose id is
    [z] and keeps every other record; afterwards no details lookup answers
    with a removed record, and the admin listing shows no summary with that
    id and still shows every other record. *)
Theorem delete_removes_the_id (StringToNumber : string -> Js.number)
    (text_to_int : string -> option Z) (collate : string -> string -> bool)
    (v : Portal.backend) (id : string) (z : Z) (st : Sql.state) :
  text_to_int id = Some z ->
  let st' := snd (Portal.handle StringToNumber text_to_int collate v
                    (Portal.DeleteRecord id) st false) in
  (forall r, In r (Sql.table st')
             <-> In r (Sql.table st) /\ Sql.id r <> z)
  /\ (forall q r,
        fst (Portal.handle StringToNumber text_to_int collate v
               (Portal.GetDetails q) st' false)
        = Http.Reply 200 (Http.JRecord r) ->
        In r (Sql.table st) /\ Sql.id r <> z)
  /\ (exists l,
        fst (Portal.handle StringToNumber text_to_int collate v
               Portal.GetRecords st' false)
        = Http.Reply 200 (Http.JArray (map Http.Summary l))
        /\ forall s, In s l
                     <-> exists r, In r (Sql.table st) /\ Sql.id r <> z
                                   /\ s = Http.summary_of r).
Proof.
  intros Hz st'.
  assert (T : Sql.table st'
              = Sql.delete_where_id (text_to_int id) (Sql.table st))
    by (subst st'; destruct v; reflexivity).
  assert (M : forall r, In r (Sql.table st')
                        <-> In r (Sql.table st) /\ Sql.id r <> z).
  { intros r. rewrite T, Hz. unfold Sql.delete_where_id.
    rewrite filter_In, negb_true_iff. cbn [Sql.int_eq].
    now rewrite Z.eqb_neq. }
  split; [exact M |]. split.
  - intros q r H. rewrite RoundTripFacts.handle_details in H.
    apply EdgeFacts.answer_in_table in H. now apply M.
  - destruct v; cbn [Portal.handle fst].
    + exists (Postgres.select_records collate (Sql.table st')).
      split; [reflexivity |]. intros s.
      unfold Postgres.select_records. rewrite in_map_iff. split.
      * intros [r [E I]]. apply RelFacts.In_order_by, M in I.
        exists r. destruct I. auto.
      * intros [r [I [N E]]]. exists r. split; [auto |].
        apply RelFacts.In_order_by, M. auto.
    + exists (MySQL.select_records collate (Sql.table st')).
      split; [reflexivity |]. intros s.
      unfold MySQL.select_records. rewrite in_map_iff. split.
      * intros [r [E I]]. apply RelFacts.In_order_by, M in I.
        exists r. destruct I. auto.
      * intros [r [I [N E]]]. exists r. split; [auto |].
        apply RelFacts.In_order_by, M. auto.
Qed.

Lemma delete_removes_the_id_witness :
  let st' := snd (Portal.handle Sample.StringToNumber Sample.text_to_int
                    Sample.collate Portal.MySQL_ (Portal.DeleteRecord "2")
                    (Sample.store Sample.cs101) false) in
  Sql.table st'
  = [ Sample.blank 1 " CS101" 3 (Some "A ");
      Sample.blank 3 "CS101" 3 None;
      Sample.blank 4 "CS101" 4 (Some "") ]
  /\ forall r, In r (Sql.table st')
               <-> In r Sample.cs101 /\ Sql.id r <> 2.
Proof.
  intros st'. split; [reflexivity |].
  exact (proj1
    (delete_removes_the_id Sample.StringToNumber Sample.text_to_int
       Sample.collate Portal.MySQL_ "2" 2 (Sample.store Sample.cs101)
       eq_refl)).
Defined.

(** X14: an update whose body holds a text field that is neither a string
    nor null nor absent (a number, a boolean, an array, an object) writes
    nothing, whatever the store would do: [trim] throws before the statement
    is sent.  The PostgreSQL variant catches the exception and answers with
    status 500 and the error "Update failed"; in the MySQL variant the
    exception escapes the handler. *)
Theorem update_with_non_string_field (StringToNumber : string -> Js.number)
    (text_to_int : string -> option Z) (collate : string -> string -> bool)
    (id : string) (b : Http.update_body) (st : Sql.state) (fault : bool) :
  Spec.text_fields b = false ->
  Portal.handle StringToNumber text_to_int collate Portal.PostgreSQL
    (Portal.PutUpdate id b) st fault
  = (Http.Reply 500 (Http.JError "Update failed"), st)
  /\ Portal.handle StringToNumber text_to_int collate Portal.MySQL_
       (Portal.PutUpdate id b) st fault
     = (Http.Raised, st).
Proof.
  intros H. cbn [Portal.handle]. unfold Postgres.update, MySQL.update.
  change (MySQL.update_fields text_to_int b)
    with (Postgres.update_fields text_to_int b).
  rewrite (WriteFacts.update_fields_throws text_to_int b H).
  split; reflexivity.
Qed.

Lemma update_with_non_string_field_witness :
  let b := {| Http.u_class_name := Js.Str "Math";
              Http.u_semester := Js.Num (Js.Int 2);
              Http.u_section := Js.Str "A";
              Http.u_academic_year := Js.Num (Js.Int 2025);
              Http.u_mentor_name := Js.Str "B";
              Http.u_designation := Js.Undefined;
              Http.u_contact := Js.Null;
              Http.u_timetable_link := Js.Str "" |} in
  let st := Sample.store [Sample.blank 1 "Math" 1 (Some "A")] in
  Portal.handle Sample.StringToNumber Sample.text_to_int Sample.collate
    Portal.PostgreSQL (Portal.PutUpdate "1" b) st false
  = (Http.Reply 500 (Http.JError "Update failed"), st)
  /\ Portal.handle Sample.StringToNumber Sample.text_to_int Sample.collate
       Portal.MySQL_ (Portal.PutUpdate "1" b) st false
     = (Http.Raised, st).
Proof.
  intros b st.
  exact (update_with_non_string_field Sample.StringToNumber
           Sample.text_to_int Sample.collate "1" b st false eq_refl).
Defined.


(** ** From classes to semesters to sections to details *)

Module CascadeFacts.
Import Http.

Lemma nonempty_member {A : Type} (l : list A) :
  l <> [] <-> exists x, In x l.
Proof.
  destruct l as [| a t]; split.
  - intros H. contradiction.
  - intros [x []].
  - intros _. exists a. now left.
  - discriminate.
Qed.

Lemma map_nonempty {A B : Type} (f : A -> B) (l : list A) :
  map f l <> [] <-> l <> [].
Proof. destruct l; simpl; split; intros H; try discriminate; auto. Qed.

Lemma In_class_names (c : string) (l : list (option string)) :
  In (ClassName (Some c)) (map ClassName l) <-> In (Some c) l.
Proof.
  rewrite in_map_iff. split.
  - intros [o [E I]]. injection E as ->. exact I.
  - intros I. now exists (Some c).
Qed.

Lemma In_semesters (z : Z) (l : list (option Z)) :
  In (Semester (Some z)) (map Semester l) <-> In (Some z) l.
Proof.
  rewrite in_map_iff. split.
  - intros [o [E I]]. injection E as ->. exact I.
  - intros I. now exists (Some z).
Qed.

Section Cascade.
Variable StringToNumber : string -> Js.number.
Variable text_to_int : string -> option Z.
Variable collate : string -> string -> bool.

(** The class names either variant lists. *)
Lemma listed_classes (v : Portal.backend) (st : Sql.state) :
  exists l,
    fst (Portal.handle StringToNumber text_to_int collate v
           Portal.GetClasses st false)
    = Reply 200 (JArray (map ClassName l))
    /\ forall o, In o l <-> In o (map Sql.class_name (Sql.table st)).
Proof.
  destruct v; cbn [Portal.handle fst].
  - exists (Postgres.select_classes collate (Sql.table st)).
    split; [reflexivity |]. intros o. unfold Postgres.select_classes.
    rewrite RelFacts.In_order_by.
    apply (RelFacts.In_distinct _ RelFacts.eqb_option_string).
  - exists (MySQL.select_classes (Sql.table st)).
    split; [reflexivity |]. intros o.
    apply (RelFacts.In_distinct _ RelFacts.eqb_option_string).
Qed.

(** The semesters either variant lists for a class. *)
Lemma listed_semesters (v : Portal.backend) (cls : option string)
    (st : Sql.state) :
  exists l,
    fst (Portal.handle StringToNumber text_to_int collate v
           (Portal.GetSemesters cls) st false)
    = Reply 200 (JArray (map Semester l))
    /\ forall s, In s l <-> Spec.semester_of_class cls (Sql.table st) s.
Proof.
  destruct v; cbn [Portal.handle fst].
  - destruct (LookupFacts.postgres_semesters cls st) as [l [E [_ [M _]]]].
    exists l. auto.
  - destruct (LookupFacts.mysql_semesters cls st) as [l [E [_ [M _]]]].
    exists l. auto.
Qed.

(** A wanted record of a trimmed table, for a request without section, has
    exactly the class and semester asked for and no section. *)
Lemma wanted_exact_no_section (r : Sql.row) (c sem : string) (z : Z) :
  Flow.tidy r ->
  Js.trim c = c ->
  StringToNumber sem = Js.Int z ->
  Spec.wanted StringToNumber
    {| q_class := Some c; q_semester := Some sem; q_section := None |} r ->
  Sql.class_name r = Some c /\ Sql.semester r = Some z
  /\ (Sql.section r = None \/ Sql.section r = Some "").
Proof.
  intros [Tc [Ts _]] Hc N [[[cn [c0 [C1 [C2 C3]]]] [z0 [Z1 Z2]]] W].
  cbn [q_class q_semester q_section Js.Number] in *.
  cbn [Spec.fields_of Sql.v_class_name Sql.v_section] in Tc, Ts.
  injection C2 as <-. rewrite N in Z1. injection Z1 as <-.
  rewrite C1 in Tc. cbn in Tc.
  rewrite (TrimFacts.TRIM_trimmed cn Tc), Hc in C3. subst cn.
  split; [exact C1 |]. split; [exact Z2 |].
  destruct W as [W | [s [S1 S2]]]; [now left |].
  right. rewrite S1 in Ts. cbn in Ts.
  rewrite (TrimFacts.TRIM_trimmed s Ts) in S2. now subst s.
Qed.
End Cascade.

End CascadeFacts.

(** X15: the classes lookup and the semesters lookup fit together.  In both
    variants, when the store executes the statements, a class name is listed
    by the classes lookup exactly when the semesters lookup for that name is
    not empty. *)
Theorem listed_class_has_semesters (StringToNumber : string -> Js.number)
    (text_to_int : string -> option Z) (collate : string -> string -> bool)
    (v : Portal.backend) (c : string) (st : Sql.state)
    (lc ls : list Http.item) :
  fst (Portal.handle StringToNumber text_to_int collate v
         Portal.GetClasses st false)
  = Http.Reply 200 (Http.JArray lc) ->
  fst (Portal.handle StringToNumber text_to_int collate v
         (Portal.GetSemesters (Some c)) st false)
  = Http.Reply 200 (Http.JArray ls) ->
  (In (Http.ClassName (Some c)) lc <-> ls <> []).
Proof.
  intros Hc Hs.
  destruct (CascadeFacts.listed_classes StringToNumber text_to_int collate
              v st) as [l1 [E1 M1]].
  destruct (CascadeFacts.listed_semesters StringToNumber text_to_int collate
              v (Some c) st) as [l2 [E2 M2]].
  rewrite E1 in Hc. injection Hc as <-.
  rewrite E2 in Hs. injection Hs as <-.
  rewrite CascadeFacts.In_class_names, CascadeFacts.map_nonempty,
    CascadeFacts.nonempty_member, M1, in_map_iff.
  split.
  - intros [r [C I]]. exists (Sql.semester r). apply M2.
    exists r, c. auto.
  - intros [s H]. apply M2 in H.
    destruct H as [r [c' [I [C1 [C2 _]]]]].
    injection C1 as <-. now exists r.
Qed.

Lemma listed_class_has_semesters_witness :
  let st := Sample.store Sample.cs101 in
  In (Http.ClassName (Some "CS101"))
    [Http.ClassName (Some " CS101"); Http.ClassName (Some "CS101")]
  <-> [Http.Semester (Some 3); Http.Semester (Some 4)] <> [].
Proof.
  intros st.
  exact (listed_class_has_semesters Sample.StringToNumber Sample.text_to_int
           Sample.collate Portal.PostgreSQL "CS101" st
           [Http.ClassName (Some " CS101"); Http.ClassName (Some "CS101")]
           [Http.Semester (Some 3); Http.Semester (Some 4)]
           eq_refl eq_refl).
Defined.

(** X16: on the data the service itself has written (every state reached
    from an empty table, in either variant), a semester the semesters lookup
    lists for a class never leads to a dead end: when [Number] and the store
    read the semester parameter as that integer, either the sections lookup
    for the class and semester lists a section, or the details lookup
    without section answers with a record of that class and semester whose
    section is NULL or empty. *)
Theorem listed_semester_resolves (StringToNumber : string -> Js.number)
    (text_to_int : string -> option Z) (collate : string -> string -> bool)
    (v : Portal.backend) (st : Sql.state) (c sem : string) (z : Z)
    (ls lsec : list Http.item) :
  Spec.reachable StringToNumber text_to_int v collate st ->
  text_to_int sem = Some z ->
  StringToNumber sem = Js.Int z ->
  fst (Portal.handle StringToNumber text_to_int collate v
         (Portal.GetSemesters (Some c)) st false)
  = Http.Reply 200 (Http.JArray ls) ->
  In (Http.Semester (Some z)) ls ->
  fst (Portal.handle StringToNumber text_to_int collate v
         (Portal.GetSections (Some c) (Some sem)) st false)
  = Http.Reply 200 (Http.JArray lsec) ->
  lsec <> []
  \/ Flow.is_record
       (fst (Portal.handle StringToNumber text_to_int collate v
               (Portal.GetDetails
                  {| Http.q_class := Some c; Http.q_semester := Some sem;
                     Http.q_section := None |}) st false))
       (fun r => In r (Sql.table st)
                 /\ Sql.class_name r = Some c
                 /\ Sql.semester r = Some z
                 /\ (Sql.section r = None \/ Sql.section r = Some "")).
Proof.
  intros R Z N Hs I Hsec.
  pose proof (TidyFacts.reachable_tidy StringToNumber text_to_int collate
                v st R) as T.
  rewrite Forall_forall in T.
  destruct (CascadeFacts.listed_semesters StringToNumber text_to_int collate
              v (Some c) st) as [l2 [E2 M2]].
  rewrite E2 in Hs. injection Hs as <-.
  apply CascadeFacts.In_semesters, M2 in I.
  destruct I as [r [c' [Ir [C1 [C2 S]]]]]. injection C1 as <-.
  pose proof (T r Ir) as [Tc [Ts _]].
  cbn [Spec.fields_of Sql.v_class_name Sql.v_section] in Tc, Ts.
  rewrite C2 in Tc. cbn in Tc.
  assert (No_section :
    Spec.has_no_section r ->
    Flow.is_record
      (fst (Portal.handle StringToNumber text_to_int collate v
              (Portal.GetDetails
                 {| Http.q_class := Some c; Http.q_semester := Some sem;
                    Http.q_section := None |}) st false))
      (fun r => In r (Sql.table st)
                /\ Sql.class_name r = Some c
                /\ Sql.semester r = Some z
                /\ (Sql.section r = None \/ Sql.section r = Some ""))).
  { intros H. rewrite RoundTripFacts.handle_details.
    assert (W : Spec.wanted StringToNumber
                  {| Http.q_class := Some c; Http.q_semester := Some sem;
                     Http.q_section := None |} r).
    { split; [split |];
        cbn [Http.q_class Http.q_semester Http.q_section Js.Number].
      - exists c, c. repeat split; [exact C2 |].
        now rewrite (TrimFacts.TRIM_trimmed c Tc), Tc.
      - exists z. auto.
      - exact H. }
    destruct (RoundTripFacts.found StringToNumber text_to_int _ st r Ir W)
      as [r' [A [Ir' W']]].
    exists r'. split; [exact A |]. split; [exact Ir' |].
    apply (CascadeFacts.wanted_exact_no_section StringToNumber r' c sem z);
      auto. }
  destruct (Sql.section r) as [s |] eqn:Es; [| right; apply No_section;
                                               now left].
  cbn in Ts. destruct (string_dec s "") as [-> | Ne].
  - right. apply No_section. right. exists "". auto.
  - left.
    assert (E : fst (Portal.handle StringToNumber text_to_int collate v
                       (Portal.GetSections (Some c) (Some sem)) st false)
                = Postgres.sections text_to_int (Some c) (Some sem) st
                    false).
    { destruct v; [reflexivity |]. cbn [Portal.handle fst].
      apply (TidyFacts.sections_same StringToNumber text_to_int collate
               Portal.MySQL_ st (Some c) (Some sem) false R). }
    rewrite E in Hsec.
    destruct (SectionsFacts.postgres_sections text_to_int (Some c)
                (Some sem) st) as [l' [L' [_ M]]].
    rewrite L' in Hsec. injection Hsec as <-.
    apply CascadeFacts.map_nonempty, CascadeFacts.nonempty_member.
    exists (Some s). apply M.
    exists r, c, z, s. repeat split; auto.
    now rewrite (TrimFacts.TRIM_trimmed s Ts).
Qed.

Lemma listed_semester_resolves_witness :
  let st := snd (Portal.handle Sample.StringToNumber Sample.text_to_int
                   Sample.collate Portal.MySQL_
                   (Portal.PostAdd Sample.math_form) (Sample.store [])
                   false) in
  Flow.is_record
    (fst (Portal.handle Sample.StringToNumber Sample.text_to_int
            Sample.collate Portal.MySQL_
            (Portal.GetDetails
               {| Http.q_class := Some "Math";
                  Http.q_semester := Some "1";
                  Http.q_section := None |}) st false))
    (fun r => In r (Sql.table st)
              /\ Sql.class_name r = Some "Math"
              /\ Sql.semester r = Some 1
              /\ (Sql.section r = None \/ Sql.section r = Some "")).
Proof.
  intros st.
  destruct (listed_semester_resolves Sample.StringToNumber
              Sample.text_to_int Sample.collate Portal.MySQL_ st
              "Math" "1" 1 [Http.Semester (Some 1)] []
              (Spec.reach_step _ _ _ _ _ _ _ (Spec.reach_init _ _ _ _ _ _))
              eq_refl eq_refl eq_refl (or_introl eq_refl) eq_refl)
    as [H | H].
  - contradiction.
  - exact H.
Defined.
